(** * monasca.v2.reference.metrics: the metrics controller

    A shallow embedding of [src/monasca/v2/reference/metrics.py] (class
    [Metrics]) and proofs about its validation, write and read paths.

    The controller is Python 2 code working on values decoded from JSON, so the
    embedding starts with the fragment of Python's object model the controller
    touches: values with their run-time types, [isinstance], [len], subscript,
    [in], iteration and the built-in exceptions these raise. *)

From Stdlib Require Import ZArith List String Ascii Bool Lia Floats.
From Stdlib Require Import Permutation.
Import ListNotations.
Local Open Scope Z_scope.
Local Open Scope string_scope.
Set Warnings "-register-all".

(** ** Results of computations that may raise *)

Inductive result (E A : Type) : Type :=
| Ok (a : A)
| Raise (e : E).
Arguments Ok {E A} a.
Arguments Raise {E A} e.

Definition rbind {E A B} (c : result E A) (k : A -> result E B) : result E B :=
  match c with
  | Ok a => k a
  | Raise e => Raise e
  end.

Declare Scope result_scope.
Delimit Scope result_scope with res.
Notation "x <- c ;; k" := (rbind c (fun x => k))
  (at level 61, c at next level, right associativity) : result_scope.
Notation "c ;; k" := (rbind c (fun _ => k))
  (at level 61, right associativity) : result_scope.

(** ** Python values *)

Module Py.

(** Python 2 has two text types: [str] (a byte string) and [unicode] (a
    sequence of code units). *)
Inductive pytext : Type :=
| Str (s : string)
| Unicode (u : list N).

Inductive pyval : Type :=
| PyNone
| PyBool (b : bool)
| PyInt (n : Z)
| PyLong (n : Z)
| PyFloat (x : float)
| PyComplex (re im : float)
| PyText (t : pytext)
| PyList (xs : list pyval)
| PyDict (items : list (pytext * pyval)).

(** Run-time types. *)
Inductive pytype : Type :=
| t_NoneType | t_bool | t_int | t_long | t_float | t_complex
| t_str | t_unicode | t_list | t_dict.

Definition pytype_eqb (a b : pytype) : bool :=
  match a, b with
  | t_NoneType, t_NoneType | t_bool, t_bool | t_int, t_int | t_long, t_long
  | t_float, t_float | t_complex, t_complex | t_str, t_str
  | t_unicode, t_unicode | t_list, t_list | t_dict, t_dict => true
  | _, _ => false
  end.

Definition type_of (v : pyval) : pytype :=
  match v with
  | PyNone => t_NoneType
  | PyBool _ => t_bool
  | PyInt _ => t_int
  | PyLong _ => t_long
  | PyFloat _ => t_float
  | PyComplex _ _ => t_complex
  | PyText (Str _) => t_str
  | PyText (Unicode _) => t_unicode
  | PyList _ => t_list
  | PyDict _ => t_dict
  end.

Definition type_name (t : pytype) : string :=
  match t with
  | t_NoneType => "NoneType" | t_bool => "bool" | t_int => "int"
  | t_long => "long" | t_float => "float" | t_complex => "complex"
  | t_str => "str" | t_unicode => "unicode" | t_list => "list"
  | t_dict => "dict"
  end.

(** [bool] is a subclass of [int]; the other types here are unrelated. *)
Definition issubclass (a b : pytype) : bool :=
  pytype_eqb a b ||
  match a, b with
  | t_bool, t_int => true
  | _, _ => false
  end.

(** [isinstance(v, (t1, ..., tn))]. *)
Definition isinstance (v : pyval) (ts : list pytype) : bool :=
  existsb (issubclass (type_of v)) ts.

(** *** Text *)

Definition codes_of_string (s : string) : list N :=
  map N_of_ascii (list_ascii_of_string s).

Definition codes (t : pytext) : list N :=
  match t with
  | Str s => codes_of_string s
  | Unicode u => u
  end.

Definition is_ascii (s : string) : bool :=
  forallb (fun c => N.ltb c 128) (codes_of_string s).

Fixpoint codes_eqb (a b : list N) : bool :=
  match a, b with
  | [], [] => true
  | x :: a', y :: b' => N.eqb x y && codes_eqb a' b'
  | _, _ => false
  end.

(** [a == b] on text.  A [str] is compared with a [unicode] by decoding it as
    ASCII; when it does not decode the two are unequal. *)
Definition text_eqb (a b : pytext) : bool :=
  match a, b with
  | Str x, Str y => String.eqb x y
  | Unicode x, Unicode y => codes_eqb x y
  | Str x, Unicode y | Unicode y, Str x => is_ascii x && codes_eqb (codes_of_string x) y
  end.

Definition len_text (t : pytext) : Z :=
  match t with
  | Str s => Z.of_nat (String.length s)
  | Unicode u => Z.of_nat (List.length u)
  end.

Fixpoint is_prefix (a b : list N) : bool :=
  match a, b with
  | [], _ => true
  | x :: a', y :: b' => N.eqb x y && is_prefix a' b'
  | _ :: _, [] => false
  end.

Fixpoint is_infix (a b : list N) : bool :=
  is_prefix a b ||
  match b with
  | [] => false
  | _ :: b' => is_infix a b'
  end.

(** *** Dictionaries

    A dictionary is kept as its items in iteration order; lookup compares keys
    with [==] and takes the first match. *)

Fixpoint dict_get (items : list (pytext * pyval)) (k : pytext) : option pyval :=
  match items with
  | [] => None
  | (k', v) :: rest => if text_eqb k k' then Some v else dict_get rest k
  end.

(** [d[k] = v]: replaces the value of an existing key, appends a new one. *)
Fixpoint dict_set (items : list (pytext * pyval)) (k : pytext) (v : pyval)
  : list (pytext * pyval) :=
  match items with
  | [] => [(k, v)]
  | (k', v') :: rest =>
      if text_eqb k k' then (k', v) :: rest else (k', v') :: dict_set rest k v
  end.

(** No two items of a dictionary have equal keys. *)
Fixpoint dict_wf (items : list (pytext * pyval)) : Prop :=
  match items with
  | [] => True
  | (k, _) :: rest => dict_get rest k = None /\ dict_wf rest
  end.

(** *** Built-in exceptions raised by the operations below *)

Inductive builtin_exn : Type :=
| AssertionError
| KeyError (key : pyval)
| TypeError (msg : string)
| UnicodeDecodeError.

(** [ex.message]: the single constructor argument, or the empty string when
    the exception was built from none or several ([assert] without a message;
    [UnicodeDecodeError] takes five). *)
Definition message (ex : builtin_exn) : pyval :=
  match ex with
  | AssertionError => PyText (Str "")
  | KeyError key => key
  | TypeError msg => PyText (Str msg)
  | UnicodeDecodeError => PyText (Str "")
  end.

Definition raises (A : Type) := result builtin_exn A.

(** [assert b] *)
Definition assert (b : bool) : raises unit :=
  if b then Ok tt else Raise AssertionError.

(** [o[k]] for a text key [k] (CPython 2.7's wording of the errors). *)
Definition getitem (o : pyval) (k : pytext) : raises pyval :=
  match o with
  | PyDict items =>
      match dict_get items k with
      | Some v => Ok v
      | None => Raise (KeyError (PyText k))
      end
  | PyList _ =>
      Raise (TypeError ("list indices must be integers, not "
                        ++ type_name (type_of (PyText k))))
  | PyText (Str _) =>
      Raise (TypeError ("string indices must be integers, not "
                        ++ type_name (type_of (PyText k))))
  | PyText (Unicode _) => Raise (TypeError "string indices must be integers")
  | _ =>
      Raise (TypeError ("'" ++ type_name (type_of o)
                        ++ "' object has no attribute '__getitem__'"))
  end.

(** [k in o] for a text [k]. *)
Definition contains (k : pytext) (o : pyval) : raises bool :=
  match o with
  | PyDict items =>
      Ok (match dict_get items k with Some _ => true | None => false end)
  | PyList xs =>
      Ok (existsb (fun x => match x with
                            | PyText t => text_eqb k t
                            | _ => false
                            end) xs)
  | PyText t =>
      match k, t with
      | Str a, Unicode _ | Unicode _, Str a =>
          if is_ascii a then Ok (is_infix (codes k) (codes t))
          else Raise UnicodeDecodeError
      | _, _ => Ok (is_infix (codes k) (codes t))
      end
  | _ =>
      Raise (TypeError ("argument of type '" ++ type_name (type_of o)
                        ++ "' is not iterable"))
  end.

(** The elements a [for] loop over [o] visits. *)
Definition iter (o : pyval) : raises (list pyval) :=
  match o with
  | PyDict items => Ok (map (fun kv => PyText (fst kv)) items)
  | PyList xs => Ok xs
  | PyText (Str s) =>
      Ok (map (fun c => PyText (Str (String c EmptyString)))
              (list_ascii_of_string s))
  | PyText (Unicode u) => Ok (map (fun c => PyText (Unicode [c])) u)
  | _ =>
      Raise (TypeError ("'" ++ type_name (type_of o)
                        ++ "' object is not iterable"))
  end.

(** [len(o)] *)
Definition len (o : pyval) : raises Z :=
  match o with
  | PyDict items => Ok (Z.of_nat (List.length items))
  | PyList xs => Ok (Z.of_nat (List.length xs))
  | PyText t => Ok (len_text t)
  | _ =>
      Raise (TypeError ("object of type '" ++ type_name (type_of o)
                        ++ "' has no len()"))
  end.

(** [for x in xs: body(x)], stopping at the first exception. *)
Fixpoint for_each {A} (xs : list A) (body : A -> raises unit) : raises unit :=
  match xs with
  | [] => Ok tt
  | x :: rest => rbind (body x) (fun _ => for_each rest body)
  end.

End Py.
Import Py.

(** ** falcon: status lines and HTTP errors *)

Module falcon.

Definition HTTP_200 : string := "200 OK".
Definition HTTP_204 : string := "204 No Content".
Definition HTTP_400 : string := "400 Bad Request".
Definition HTTP_401 : string := "401 Unauthorized".
Definition HTTP_403 : string := "403 Forbidden".
Definition HTTP_503 : string := "503 Service Unavailable".

Record HTTPError : Type := mkHTTPError {
  status : string;
  title : string;
  description : pyval;
  retry_after : option Z
}.

Definition HTTPBadRequest (title : string) (description : pyval) : HTTPError :=
  mkHTTPError HTTP_400 title description None.

Definition HTTPUnauthorized (title : string) (description : pyval) : HTTPError :=
  mkHTTPError HTTP_401 title description None.

Definition HTTPForbidden (title : string) (description : pyval) : HTTPError :=
  mkHTTPError HTTP_403 title description None.

Definition HTTPServiceUnavailable (title : string) (description : pyval)
    (retry_after : Z) : HTTPError :=
  mkHTTPError HTTP_503 title description (Some retry_after).

Record Request : Type := mkRequest {
  uri : string;
  headers : list (string * string);
  query_string : string;
  stream : string
}.

Record Response : Type := mkResponse {
  res_status : string;
  res_body : option string
}.

End falcon.

(** ** Exceptions, observable calls and the request monad *)

(** What a request handler can raise: an HTTP error for falcon to render, the
    message queue's own exception, or any other exception a collaborator lets
    escape. *)
Inductive exn : Type :=
| HTTP (e : falcon.HTTPError)
| MessageQueueException (message : pyval)
| OtherException (name : string) (message : pyval).

(** The calls a handler makes outside this module, in the order it makes
    them: the functions of [helpers], the transform, the message queue, the
    metrics repository and the logger. *)
Inductive event : Type :=
| EvValidateJsonContentType
| EvValidateAuthorization (roles : list string)
| EvReadHttpResource
| EvGetXTenantOrTenantId (roles : list string)
| EvGetTenantId
| EvGetQueryName
| EvValidateQueryName
| EvGetQueryDimensions
| EvValidateQueryDimensions
| EvGetQueryStarttimeTimestamp
| EvGetQueryEndtimeTimestamp
| EvGetQueryStatistics
| EvGetQueryPeriod
| EvGetQueryParam (name : string)
| EvGetLimit
| EvStr2Bool
| EvDumpitUtf8
| EvMetricsTransform
| EvSendMessageBatch (batch : pyval)
| EvRepository (method : string)
| EvLogDebug (ex : builtin_exn)
| EvLogException (ex : exn).

(** A handler's run: the calls it made, then its value or the exception that
    ended it. *)
Definition M (A : Type) : Type := (list event * result exn A)%type.

Definition ret {A} (a : A) : M A := ([], Ok a).

Definition raise {A} (e : exn) : M A := ([], Raise e).

Definition bind {A B} (c : M A) (k : A -> M B) : M B :=
  match c with
  | (t, Ok a) => let (t', r) := k a in ((t ++ t')%list, r)
  | (t, Raise e) => (t, Raise e)
  end.

(** [try: c except Exception as ex: handler(ex)] *)
Definition try_except {A} (c : M A) (handler : exn -> M A) : M A :=
  match c with
  | (t, Ok a) => (t, Ok a)
  | (t, Raise e) => let (t', r) := handler e in ((t ++ t')%list, r)
  end.

(** A call to a collaborator: recorded, then its outcome. *)
Definition call {A} (ev : event) (outcome : result exn A) : M A := ([ev], outcome).

Definition trace {A} (c : M A) : list event := fst c.
Definition outcome {A} (c : M A) : result exn A := snd c.

Declare Scope M_scope.
Delimit Scope M_scope with M.
Notation "x <- c ;; k" := (bind c (fun x => k))
  (at level 61, c at next level, right associativity) : M_scope.
Notation "c ;; k" := (bind c (fun _ => k))
  (at level 61, right associativity) : M_scope.

Module LOG.
Definition debug (ex : builtin_exn) : M unit := call (EvLogDebug ex) (Ok tt).
Definition exception (ex : exn) : M unit := call (EvLogException ex) (Ok tt).
End LOG.

(** ** Collaborators

    [monasca.v2.reference.helpers], [monasca.v2.reference.resource], the
    transform built by [metrics_transform_factory], the message queue driver
    and the metrics repository driver are imported by the controller and are
    not part of the sources.  The controller is modelled over their
    behaviour: each function is a field giving the outcome of a call. *)

(** Modelled from the spec: [helpers.validate_authorization] is not in the
    sources; by sections 4.5 and 6 ("authorize(request, allowed_roles) ->
    tenant_identity | Forbidden", "failure yields Forbidden/Unauthorized") its
    only failures are these two conditions. *)
Inductive auth_failure : Type :=
| Unauthorized (title : string) (description : pyval)
| Forbidden (title : string) (description : pyval).

Definition auth_error (f : auth_failure) : exn :=
  match f with
  | Unauthorized t d => HTTP (falcon.HTTPUnauthorized t d)
  | Forbidden t d => HTTP (falcon.HTTPForbidden t d)
  end.

Definition lift_auth {A} (r : result auth_failure A) : result exn A :=
  match r with
  | Ok a => Ok a
  | Raise f => Raise (auth_error f)
  end.

(** A paginated response body: the page and, when there is more to read, the
    link to the next page. *)
Record Envelope : Type := mkEnvelope {
  elements : list pyval;
  next : option string
}.

(** The behaviour of the functions of [helpers].  Optional positional
    arguments are passed as the list of those the call site gives. *)
Record Helpers : Type := mkHelpers {
  h_validate_json_content_type : falcon.Request -> result exn unit;
  h_validate_authorization : falcon.Request -> list string -> result auth_failure unit;
  h_read_http_resource : falcon.Request -> result exn pyval;
  h_get_x_tenant_or_tenant_id : falcon.Request -> list string -> result exn pyval;
  h_get_tenant_id : falcon.Request -> result exn pyval;
  h_get_query_name : falcon.Request -> list pyval -> result exn pyval;
  h_validate_query_name : pyval -> result exn unit;
  h_get_query_dimensions : falcon.Request -> result exn pyval;
  h_validate_query_dimensions : pyval -> result exn unit;
  h_get_query_starttime_timestamp : falcon.Request -> result exn pyval;
  h_get_query_endtime_timestamp : falcon.Request -> list pyval -> result exn pyval;
  h_get_query_statistics : falcon.Request -> result exn pyval;
  h_get_query_period : falcon.Request -> result exn pyval;
  h_get_query_param : falcon.Request -> string -> list pyval -> result exn pyval;
  h_get_limit : falcon.Request -> result exn Z;
  h_str_2_bool : pyval -> result exn pyval;
  h_dumpit_utf8 : Envelope -> result exn string;
  (* the injected parts of pagination: the continuation cursor of a page's
     last element, per kind of result, and the request URI with its offset
     parameter set to a cursor *)
  h_metric_cursor : pyval -> string;
  h_measurement_cursor : pyval -> string;
  h_statistics_cursor : pyval -> string;
  h_with_offset : string -> string -> string
}.

Module helpers.
Section Calls.
Variable h : Helpers.
Local Open Scope M_scope.

Definition validate_json_content_type (req : falcon.Request) : M unit :=
  call EvValidateJsonContentType (h_validate_json_content_type h req).

Definition validate_authorization (req : falcon.Request) (roles : list string) : M unit :=
  call (EvValidateAuthorization roles) (lift_auth (h_validate_authorization h req roles)).

Definition read_http_resource (req : falcon.Request) : M pyval :=
  call EvReadHttpResource (h_read_http_resource h req).

Definition get_x_tenant_or_tenant_id (req : falcon.Request) (roles : list string) : M pyval :=
  call (EvGetXTenantOrTenantId roles) (h_get_x_tenant_or_tenant_id h req roles).

Definition get_tenant_id (req : falcon.Request) : M pyval :=
  call EvGetTenantId (h_get_tenant_id h req).

Definition get_query_name (req : falcon.Request) (args : list pyval) : M pyval :=
  call EvGetQueryName (h_get_query_name h req args).

Definition validate_query_name (name : pyval) : M unit :=
  call EvValidateQueryName (h_validate_query_name h name).

Definition get_query_dimensions (req : falcon.Request) : M pyval :=
  call EvGetQueryDimensions (h_get_query_dimensions h req).

Definition validate_query_dimensions (dimensions : pyval) : M unit :=
  call EvValidateQueryDimensions (h_validate_query_dimensions h dimensions).

Definition get_query_starttime_timestamp (req : falcon.Request) : M pyval :=
  call EvGetQueryStarttimeTimestamp (h_get_query_starttime_timestamp h req).

Definition get_query_endtime_timestamp (req : falcon.Request) (args : list pyval) : M pyval :=
  call EvGetQueryEndtimeTimestamp (h_get_query_endtime_timestamp h req args).

Definition get_query_statistics (req : falcon.Request) : M pyval :=
  call EvGetQueryStatistics (h_get_query_statistics h req).

Definition get_query_period (req : falcon.Request) : M pyval :=
  call EvGetQueryPeriod (h_get_query_period h req).

Definition get_query_param (req : falcon.Request) (name : string) (args : list pyval) : M pyval :=
  call (EvGetQueryParam name) (h_get_query_param h req name args).

Definition get_limit (req : falcon.Request) : M Z :=
  call EvGetLimit (h_get_limit h req).

Definition str_2_bool (s : pyval) : M pyval :=
  call EvStr2Bool (h_str_2_bool h s).

Definition dumpit_utf8 (body : Envelope) : M string :=
  call EvDumpitUtf8 (h_dumpit_utf8 h body).

(** Modelled from the spec: [helpers.paginate], [helpers.paginate_measurement]
    and [helpers.paginate_statistics] are not in the sources.  Section 4.4:
    the page is wrapped under [elements]; when [len(page) == limit] a [next]
    link is computed, the request URI with its offset parameter pointing at
    the cursor of the page's last element; otherwise the link is omitted.  The
    three differ only in the cursor they take from the last element. *)
Definition paginate_with (cursor : pyval -> string) (page : list pyval)
    (req_uri : string) (limit : Z) : Envelope :=
  mkEnvelope page
    (if (Z.of_nat (List.length page) =? limit)%Z then
       match rev page with
       | last_element :: _ => Some (h_with_offset h req_uri (cursor last_element))
       | [] => None
       end
     else None).

Definition paginate := paginate_with (h_metric_cursor h).
Definition paginate_measurement := paginate_with (h_measurement_cursor h).
Definition paginate_statistics := paginate_with (h_statistics_cursor h).

End Calls.
End helpers.

Module resource.
Local Open Scope M_scope.

(** Modelled from the spec: the decorator [resource.resource_try_catch_block]
    is not in the sources.  Section 4.5: any uncaught exception during
    repository access is mapped to a generic ServiceUnavailable response;
    section 7: the detail is logged, the caller gets a generic message. *)
Definition resource_try_catch_block {A} (c : M A) : M A :=
  try_except c (fun ex =>
    LOG.exception ex ;;
    raise (HTTP (falcon.mkHTTPError falcon.HTTP_503 "Service unavailable"
                   (PyText (Str "")) None))).

End resource.

Module metrics_transform_factory.

(** Modelled from the spec: the transform made by
    [metrics_transform_factory.create_metrics_transform] is not in the
    sources.  Sections 3 and 4.2: a TransformedMetric is the metric plus
    [tenant_id] and [region]; the transform attaches both to each metric of
    the batch, which is a single metric or a list, and returns a new
    sequence. *)
Definition attach (tenant_id region : pyval) (metric : pyval) : pyval :=
  match metric with
  | PyDict items =>
      PyDict (dict_set (dict_set items (Str "tenant_id") tenant_id)
                       (Str "region") region)
  | other => other
  end.

(** Modelled from the spec: section 4.2, "transform(batch, tenant_id, region)
    -> sequence of TransformedMetric", a pure mapping over the batch. *)
Definition transform (batch tenant_id region : pyval) : pyval :=
  match batch with
  | PyList ms => PyList (map (attach tenant_id region) ms)
  | m => PyList [attach tenant_id region m]
  end.

(** Objects live in a store, addressed by position. *)
Definition store : Type := list pyval.

(** Modelled from the spec: section 4.2, "must not mutate the input batch;
    produces a new sequence".  The transform reads the batch at its address
    and allocates its output past the objects there are. *)
Definition transform_in (st : store) (batch : nat) (tenant_id region : pyval)
  : store * nat :=
  ((st ++ [transform (nth batch st PyNone) tenant_id region])%list,
   List.length st).

(** Modelled from the spec: section 4.2, the transform has no error path. *)
Definition create_metrics_transform (metrics tenant_id region : pyval)
  : result exn pyval :=
  Ok (transform metrics tenant_id region).

End metrics_transform_factory.

Record MessageQueue : Type := mkMessageQueue {
  send_message_batch : pyval -> result exn unit
}.

Record MetricsRepo : Type := mkMetricsRepo {
  list_metrics :
    pyval -> pyval -> pyval -> pyval -> pyval -> Z -> result exn (list pyval);
  list_metric_names :
    pyval -> pyval -> pyval -> pyval -> Z -> result exn (list pyval);
  measurement_list :
    pyval -> pyval -> pyval -> pyval -> pyval -> pyval -> pyval -> Z -> pyval
    -> result exn (list pyval);
  metrics_statistics :
    pyval -> pyval -> pyval -> pyval -> pyval -> pyval -> pyval -> pyval
    -> pyval -> Z -> pyval -> result exn (list pyval)
}.

(** ** The controller: class [Metrics] *)

(** The attributes [__init__] sets from the configuration and the drivers it
    loads. *)
Record Metrics : Type := mkMetrics {
  _region : pyval;
  _default_authorized_roles : list string;
  _delegate_authorized_roles : list string;
  _post_metrics_authorized_roles : list string;
  _metrics_transform : pyval -> pyval -> pyval -> result exn pyval;
  _message_queue : MessageQueue;
  _metrics_repo : MetricsRepo
}.

(** The body of the loop over [metric['dimensions']].  Past the first
    assertion [d] is text, which the match records. *)
Definition check_dimension (metric d : pyval) : raises unit :=
  match d with
  | PyText k =>                       (* assert isinstance(d, (str, unicode)) *)
      (assert (len_text k <=? 255)%Z ;;
       dimensions <- getitem metric (Str "dimensions") ;;
       v <- getitem dimensions k ;;
       assert (isinstance v [t_str; t_unicode]) ;;
       dimensions <- getitem metric (Str "dimensions") ;;
       v <- getitem dimensions k ;;
       n <- len v ;;
       assert (n <=? 255)%Z)%res
  | _ => Raise AssertionError
  end.

Definition _validate_single_metric (metric : pyval) : raises unit :=
  (name <- getitem metric (Str "name") ;;
   assert (isinstance name [t_str; t_unicode]) ;;
   name <- getitem metric (Str "name") ;;
   n <- len name ;;
   assert (n <=? 64)%Z ;;
   timestamp <- getitem metric (Str "timestamp") ;;
   assert (isinstance timestamp [t_int; t_float]) ;;
   value <- getitem metric (Str "value") ;;
   assert (isinstance value [t_int; t_long; t_float; t_complex]) ;;
   has_dimensions <- contains (Str "dimensions") metric ;;
   if has_dimensions : bool then
     dimensions <- getitem metric (Str "dimensions") ;;
     ds <- iter dimensions ;;
     for_each ds (check_dimension metric)
   else Ok tt)%res.

(** The [try] block of [_validate_metrics]. *)
Definition validate_each (metrics : pyval) : raises unit :=
  if isinstance metrics [t_list] then
    (ms <- iter metrics ;;
     for_each ms _validate_single_metric)%res
  else _validate_single_metric metrics.

Definition _validate_metrics (metrics : pyval) : M unit :=
  match validate_each metrics with
  | Ok _ => ret tt
  | Raise ex =>
      (LOG.debug ex ;;
       raise (HTTP (falcon.HTTPBadRequest "Bad request" (message ex))))%M
  end.

Section Handlers.
Variable h : Helpers.
Variable self : Metrics.
Local Open Scope M_scope.

Definition _send_metrics (metrics : pyval) : M unit :=
  try_except
    (call (EvSendMessageBatch metrics)
          (send_message_batch (_message_queue self) metrics))
    (fun ex =>
       match ex with
       | MessageQueueException msg =>
           LOG.exception ex ;;
           raise (HTTP (falcon.HTTPServiceUnavailable "Service unavailable" msg 60))
       | _ => raise ex
       end).

Definition _list_metrics (tenant_id name dimensions : pyval) (req_uri : string)
    (offset : pyval) (limit : Z) : M Envelope :=
  resource.resource_try_catch_block
    (result <- call (EvRepository "list_metrics")
                 (list_metrics (_metrics_repo self) tenant_id (_region self)
                    name dimensions offset limit) ;;
     ret (helpers.paginate h result req_uri limit)).

Definition _list_metric_names (tenant_id dimensions : pyval) (req_uri : string)
    (offset : pyval) (limit : Z) : M Envelope :=
  resource.resource_try_catch_block
    (result <- call (EvRepository "list_metric_names")
                 (list_metric_names (_metrics_repo self) tenant_id (_region self)
                    dimensions offset limit) ;;
     ret (helpers.paginate h result req_uri limit)).

Definition _measurement_list (tenant_id name dimensions start_timestamp
    end_timestamp : pyval) (req_uri : string) (offset : pyval) (limit : Z)
    (merge_metrics_flag : pyval) : M Envelope :=
  resource.resource_try_catch_block
    (result <- call (EvRepository "measurement_list")
                 (measurement_list (_metrics_repo self) tenant_id (_region self)
                    name dimensions start_timestamp end_timestamp offset limit
                    merge_metrics_flag) ;;
     ret (helpers.paginate_measurement h result req_uri limit)).

Definition _metric_statistics (tenant_id name dimensions start_timestamp
    end_timestamp statistics period : pyval) (req_uri : string)
    (offset : pyval) (limit : Z) (merge_metrics_flag : pyval) : M Envelope :=
  resource.resource_try_catch_block
    (result <- call (EvRepository "metrics_statistics")
                 (metrics_statistics (_metrics_repo self) tenant_id (_region self)
                    name dimensions start_timestamp end_timestamp statistics
                    period offset limit merge_metrics_flag) ;;
     ret (helpers.paginate_statistics h result req_uri limit)).

(** [if merge_metrics_flag_str is not False]: only the object [False] itself
    takes the [else] branch. *)
Definition _get_boolean_merge_metrics_flag (merge_metrics_flag_str : pyval) : M pyval :=
  match merge_metrics_flag_str with
  | PyBool false => ret (PyBool false)
  | _ => helpers.str_2_bool h merge_metrics_flag_str
  end.

Definition respond (res : falcon.Response) (body : string) : falcon.Response :=
  falcon.mkResponse falcon.HTTP_200 (Some body).

Definition do_post_metrics (req : falcon.Request) (res : falcon.Response)
  : M falcon.Response :=
  helpers.validate_json_content_type h req ;;
  helpers.validate_authorization h req (_post_metrics_authorized_roles self) ;;
  metrics <- helpers.read_http_resource h req ;;
  _validate_metrics metrics ;;
  tenant_id <- helpers.get_x_tenant_or_tenant_id h req
                 (_delegate_authorized_roles self) ;;
  transformed_metrics <- call EvMetricsTransform
                           (_metrics_transform self metrics tenant_id (_region self)) ;;
  _send_metrics transformed_metrics ;;
  ret (falcon.mkResponse falcon.HTTP_204 (falcon.res_body res)).

Definition do_get_metrics (req : falcon.Request) (res : falcon.Response)
  : M falcon.Response :=
  helpers.validate_authorization h req (_default_authorized_roles self) ;;
  tenant_id <- helpers.get_tenant_id h req ;;
  name <- helpers.get_query_name h req [] ;;
  helpers.validate_query_name h name ;;
  dimensions <- helpers.get_query_dimensions h req ;;
  helpers.validate_query_dimensions h dimensions ;;
  offset <- helpers.get_query_param h req "offset" [] ;;
  limit <- helpers.get_limit h req ;;
  result <- _list_metrics tenant_id name dimensions (falcon.uri req) offset limit ;;
  body <- helpers.dumpit_utf8 h result ;;
  ret (respond res body).

Definition do_get_measurements (req : falcon.Request) (res : falcon.Response)
  : M falcon.Response :=
  helpers.validate_authorization h req (_default_authorized_roles self) ;;
  tenant_id <- helpers.get_tenant_id h req ;;
  name <- helpers.get_query_name h req [PyBool true] ;;
  helpers.validate_query_name h name ;;
  dimensions <- helpers.get_query_dimensions h req ;;
  helpers.validate_query_dimensions h dimensions ;;
  start_timestamp <- helpers.get_query_starttime_timestamp h req ;;
  end_timestamp <- helpers.get_query_endtime_timestamp h req [PyBool false] ;;
  offset <- helpers.get_query_param h req "offset" [] ;;
  limit <- helpers.get_limit h req ;;
  merge_metrics_flag <- helpers.get_query_param h req "merge_metrics"
                          [PyBool false; PyBool false] ;;
  merge_metrics_flag <- _get_boolean_merge_metrics_flag merge_metrics_flag ;;
  result <- _measurement_list tenant_id name dimensions start_timestamp
              end_timestamp (falcon.uri req) offset limit merge_metrics_flag ;;
  body <- helpers.dumpit_utf8 h result ;;
  ret (respond res body).

Definition do_get_metric_names (req : falcon.Request) (res : falcon.Response)
  : M falcon.Response :=
  helpers.validate_authorization h req (_default_authorized_roles self) ;;
  tenant_id <- helpers.get_tenant_id h req ;;
  dimensions <- helpers.get_query_dimensions h req ;;
  helpers.validate_query_dimensions h dimensions ;;
  offset <- helpers.get_query_param h req "offset" [] ;;
  limit <- helpers.get_limit h req ;;
  result <- _list_metric_names tenant_id dimensions (falcon.uri req) offset limit ;;
  body <- helpers.dumpit_utf8 h result ;;
  ret (respond res body).

Definition do_get_statistics (req : falcon.Request) (res : falcon.Response)
  : M falcon.Response :=
  helpers.validate_authorization h req (_default_authorized_roles self) ;;
  tenant_id <- helpers.get_tenant_id h req ;;
  name <- helpers.get_query_name h req [PyBool true] ;;
  helpers.validate_query_name h name ;;
  dimensions <- helpers.get_query_dimensions h req ;;
  helpers.validate_query_dimensions h dimensions ;;
  start_timestamp <- helpers.get_query_starttime_timestamp h req ;;
  end_timestamp <- helpers.get_query_endtime_timestamp h req [PyBool false] ;;
  statistics <- helpers.get_query_statistics h req ;;
  period <- helpers.get_query_period h req ;;
  offset <- helpers.get_query_param h req "offset" [] ;;
  limit <- helpers.get_limit h req ;;
  merge_metrics_flag <- helpers.get_query_param h req "merge_metrics"
                          [PyBool false; PyBool false] ;;
  merge_metrics_flag <- _get_boolean_merge_metrics_flag merge_metrics_flag ;;
  result <- _metric_statistics tenant_id name dimensions start_timestamp
              end_timestamp statistics period (falcon.uri req) offset limit
              merge_metrics_flag ;;
  body <- helpers.dumpit_utf8 h result ;;
  ret (respond res body).

End Handlers.

(** ** What the spec says a valid metric is *)

(** The metric's field [k], when the metric is a mapping that has it. *)
Definition field (metric : pyval) (k : string) : option pyval :=
  match metric with
  | PyDict items => dict_get items (Str k)
  | _ => None
  end.

(** Text of length at most [bound]. *)
Definition text_within (bound : Z) (v : pyval) : bool :=
  match v with
  | PyText t => (len_text t <=? bound)%Z
  | _ => false
  end.

(** A real number: an integer of either width or a float. *)
Definition is_real (v : pyval) : bool := isinstance v [t_int; t_long; t_float].

(** A number, real or complex. *)
Definition is_number (v : pyval) : bool :=
  isinstance v [t_int; t_long; t_float; t_complex].

(** Every key and every value of a dimensions mapping is text of length at
    most 255; nothing is asked when there is no such mapping. *)
Definition dimensions_within (dimensions : option pyval) : bool :=
  match dimensions with
  | Some (PyDict dims) =>
      forallb (fun kv => (len_text (fst kv) <=? 255)%Z && text_within 255 (snd kv)) dims
  | _ => true
  end.

(** The per-metric checks of section 4.1, parametrised by what counts as a
    timestamp and as a value. *)
Definition checks (timestamp_ok value_ok : pyval -> bool) (metric : pyval) : bool :=
  match field metric "name", field metric "timestamp", field metric "value" with
  | Some name, Some timestamp, Some value =>
      text_within 64 name && timestamp_ok timestamp && value_ok value
      && dimensions_within (field metric "dimensions")
  | _, _, _ => false
  end.

(** As the spec words them: timestamp and value are real numbers. *)
Definition spec_valid_metric : pyval -> bool := checks is_real is_real.

(** As the code has them: the timestamp is an [int] or a [float], the value
    an [int], [long], [float] or [complex]. *)
Definition code_valid_metric : pyval -> bool :=
  checks (fun v => isinstance v [t_int; t_float]) is_number.

(** The [dimensions] entry, when present, is a mapping (with distinct keys). *)
Definition dimensions_is_mapping (metric : pyval) : Prop :=
  match field metric "dimensions" with
  | None => True
  | Some (PyDict dims) => dict_wf dims
  | Some _ => False
  end.

(** The timestamp is not a Python [long]. *)
Definition timestamp_not_long (metric : pyval) : Prop :=
  match field metric "timestamp" with
  | Some (PyLong _) => False
  | _ => True
  end.

(** A metric the validator lets through. *)
Definition accepts (metric : pyval) : bool :=
  match _validate_single_metric metric with
  | Ok _ => true
  | Raise _ => false
  end.

(** The text [msg] contains [needle]. *)
Definition mentions (needle : string) (msg : pyval) : bool :=
  match msg with
  | PyText t => is_infix (codes_of_string needle) (codes t)
  | _ => false
  end.

(** The entry of a mapping under any text key. *)
Definition entry (metric : pyval) (k : pytext) : option pyval :=
  match metric with
  | PyDict items => dict_get items k
  | _ => None
  end.

(** The metrics of a batch: the elements of a list, or the single metric. *)
Definition batch_elements (batch : pyval) : list pyval :=
  match batch with
  | PyList ms => ms
  | m => [m]
  end.

(** ** Reading traces *)

(** Some event satisfying [p] comes strictly before some event satisfying [q]. *)
Fixpoint occurs_before (p q : event -> bool) (t : list event) : bool :=
  match t with
  | [] => false
  | ev :: rest => (p ev && existsb q rest) || occurs_before p q rest
  end.

Definition is_read_body (ev : event) : bool :=
  match ev with EvReadHttpResource => true | _ => false end.

Definition is_resolve_tenant (ev : event) : bool :=
  match ev with EvGetXTenantOrTenantId _ => true | _ => false end.

Definition is_authorization (ev : event) : bool :=
  match ev with EvValidateAuthorization _ => true | _ => false end.

(** Calls that change something outside the request: the queue send and the
    repository. *)
Definition side_effecting (ev : event) : bool :=
  match ev with
  | EvSendMessageBatch _ | EvRepository _ => true
  | _ => false
  end.

(** Everything a handler does past authorization: reading and normalizing
    the body or the query, resolving the tenant, the transform, the queue,
    the repository and serialization. *)
Definition processing (ev : event) : bool :=
  match ev with
  | EvValidateJsonContentType | EvValidateAuthorization _ => false
  | EvLogDebug _ | EvLogException _ => false
  | _ => true
  end.

(** The five operations and their handlers. *)
Inductive operation : Type :=
| PostMetrics | GetMetrics | GetMetricNames | GetMeasurements | GetStatistics.

Definition handler (op : operation) (h : Helpers) (self : Metrics)
    (req : falcon.Request) (res : falcon.Response) : M falcon.Response :=
  match op with
  | PostMetrics => do_post_metrics h self req res
  | GetMetrics => do_get_metrics h self req res
  | GetMetricNames => do_get_metric_names h self req res
  | GetMeasurements => do_get_measurements h self req res
  | GetStatistics => do_get_statistics h self req res
  end.

(** The routes [resource_api.Restify] registers the handlers under. *)
Definition route (method path : string) : option operation :=
  match method, path with
  | "post", "/v2.0/metrics/" => Some PostMetrics
  | "get", "/v2.0/metrics/" => Some GetMetrics
  | "get", "/v2.0/metrics/measurements" => Some GetMeasurements
  | "get", "/v2.0/metrics/names" => Some GetMetricNames
  | "get", "/v2.0/metrics/statistics" => Some GetStatistics
  | _, _ => None
  end.

(** The role set each handler passes to [validate_authorization]. *)
Definition required_roles (self : Metrics) (op : operation) : list string :=
  match op with
  | PostMetrics => _post_metrics_authorized_roles self
  | _ => _default_authorized_roles self
  end.

(** ** The full-page rule of pagination *)

(** A reader's run ended in an envelope that carries [page], with a [next]
    link exactly when the page has [limit] elements and none when it has
    fewer. *)
Definition full_page_rule (page : list pyval) (limit : Z) (run : M Envelope) : Prop :=
  exists envelope,
    outcome run = Ok envelope /\
    elements envelope = page /\
    (next envelope <> None <-> Z.of_nat (List.length page) = limit) /\
    ((Z.of_nat (List.length page) < limit)%Z -> next envelope = None).

(** ** Concrete requests *)

(** Text as the JSON decoder delivers it. *)
Definition u (s : string) : pytext := Unicode (codes_of_string s).

(** Scenario 1 of the spec:
    [{"name":"cpu.idle","timestamp":1234567890,"value":98.5,"dimensions":{"host":"a"}}] *)
Definition cpu_idle : pyval :=
  PyDict [(u "name", PyText (u "cpu.idle"));
          (u "timestamp", PyInt 1234567890);
          (u "value", PyFloat 98.5%float);
          (u "dimensions", PyDict [(u "host", PyText (u "a"))])].

(** The same metric with a complex value. *)
Definition complex_valued : pyval :=
  PyDict [(u "name", PyText (u "cpu.idle"));
          (u "timestamp", PyInt 1234567890);
          (u "value", PyComplex 1%float 2%float)].

(** A timestamp past the machine integers: [9223372036854775808]. *)
Definition long_stamped : pyval :=
  PyDict [(u "name", PyText (u "cpu.idle"));
          (u "timestamp", PyLong 9223372036854775808);
          (u "value", PyFloat 98.5%float)].

(** A timestamp that is the JSON literal [true]. *)
Definition bool_stamped : pyval :=
  PyDict [(u "name", PyText (u "cpu.idle"));
          (u "timestamp", PyBool true);
          (u "value", PyFloat 98.5%float)].

(** Scenario 2 of the spec: a name of 65 characters. *)
Definition name_of_65 : string :=
  "aaaaaaaaaaaaaaaaaaaaaaaaaaaaaaaaaaaaaaaaaaaaaaaaaaaaaaaaaaaaaaaaa".

Definition long_named : pyval :=
  PyDict [(u "name", PyText (u name_of_65));
          (u "timestamp", PyInt 1234567890);
          (u "value", PyFloat 98.5%float)].

(** A metric without a name. *)
Definition nameless : pyval :=
  PyDict [(u "timestamp", PyInt 1234567890); (u "value", PyInt 1)].

Definition sample_request : falcon.Request :=
  falcon.mkRequest "http://localhost:8080/v2.0/metrics/"
    [("Content-Type", "application/json")] "" "".

Definition fresh_response : falcon.Response :=
  falcon.mkResponse falcon.HTTP_200 None.

(** Collaborators with the given outcomes of the content-type check, the
    authorization, the body read and the tenant resolution; the query
    helpers return fixed values. *)
Definition sample_helpers (content_type : result exn unit)
    (authorization : result auth_failure unit)
    (body tenant : result exn pyval) : Helpers :=
  {| h_validate_json_content_type := fun _ => content_type;
     h_validate_authorization := fun _ _ => authorization;
     h_read_http_resource := fun _ => body;
     h_get_x_tenant_or_tenant_id := fun _ _ => tenant;
     h_get_tenant_id := fun _ => tenant;
     h_get_query_name := fun _ _ => Ok (PyText (u "cpu.idle"));
     h_validate_query_name := fun _ => Ok tt;
     h_get_query_dimensions := fun _ => Ok (PyDict []);
     h_validate_query_dimensions := fun _ => Ok tt;
     h_get_query_starttime_timestamp := fun _ => Ok (PyInt 1577836800);
     h_get_query_endtime_timestamp := fun _ _ => Ok PyNone;
     h_get_query_statistics := fun _ => Ok (PyList [PyText (u "avg")]);
     h_get_query_period := fun _ => Ok (PyInt 60);
     h_get_query_param := fun _ _ args =>
       match args with
       | [_; default_value] => Ok default_value
       | _ => Ok PyNone
       end;
     h_get_limit := fun _ => Ok 2%Z;
     h_str_2_bool := fun _ => Ok (PyBool true);
     h_dumpit_utf8 := fun _ => Ok "{}";
     h_metric_cursor := fun _ => "id";
     h_measurement_cursor := fun _ => "timestamp";
     h_statistics_cursor := fun _ => "bucket";
     h_with_offset := fun uri cursor => uri ++ "?offset=" ++ cursor |}.

(** A controller whose queue answers [sent] and whose repository returns
    [page] to every query. *)
Definition sample_metrics (sent : result exn unit) (page : list pyval) : Metrics :=
  {| _region := PyText (Str "useast");
     _default_authorized_roles := ["user"; "admin"];
     _delegate_authorized_roles := ["admin"];
     _post_metrics_authorized_roles := ["user"; "admin"; "agent"];
     _metrics_transform := metrics_transform_factory.create_metrics_transform;
     _message_queue := mkMessageQueue (fun _ => sent);
     _metrics_repo :=
       mkMetricsRepo (fun _ _ _ _ _ _ => Ok page)
                     (fun _ _ _ _ _ => Ok page)
                     (fun _ _ _ _ _ _ _ _ _ => Ok page)
                     (fun _ _ _ _ _ _ _ _ _ _ _ => Ok page) |}.

Definition tenant_42 : pyval := PyText (u "42").

(** ** More to say about metrics and batches *)

(** The value is a mapping. *)
Definition is_mapping (v : pyval) : bool := isinstance v [t_dict].

(** The description of the error a run ended in, when it ended in an HTTP
    error. *)
Definition error_description {A} (run : M A) : option pyval :=
  match outcome run with
  | Raise (HTTP e) => Some (falcon.description e)
  | _ => None
  end.

(** A metric whose [dimensions] is a list. *)
Definition listed_dimensions : pyval :=
  PyDict [(u "name", PyText (u "cpu.idle"));
          (u "timestamp", PyInt 1234567890);
          (u "value", PyFloat 98.5%float);
          (u "dimensions", PyList [])].

(** The items of [cpu_idle], in another order. *)
Definition cpu_idle_items : list (pytext * pyval) :=
  [(u "name", PyText (u "cpu.idle"));
   (u "timestamp", PyInt 1234567890);
   (u "value", PyFloat 98.5%float);
   (u "dimensions", PyDict [(u "host", PyText (u "a"))])].

Definition cpu_idle_reordered : list (pytext * pyval) :=
  [(u "timestamp", PyInt 1234567890);
   (u "name", PyText (u "cpu.idle"));
   (u "value", PyFloat 98.5%float);
   (u "dimensions", PyDict [(u "host", PyText (u "a"))])].

(** ** More to say about traces *)

Definition is_send (ev : event) : bool :=
  match ev with EvSendMessageBatch _ => true | _ => false end.

Definition is_repository (ev : event) : bool :=
  match ev with EvRepository _ => true | _ => false end.

(** The object [False] itself. *)
Definition is_False (v : pyval) : bool :=
  match v with PyBool false => true | _ => false end.

(** A queue that fails in its own way, and one that fails in another. *)
Definition broker_down : result exn unit :=
  Raise (MessageQueueException (PyText (Str "broker down"))).

(** ** What the read handlers prepare

    Each read handler authorizes the caller, resolves the tenant, then reads
    and validates its query parameters, in the order of the source; only
    then does it call its reader.  The predicates below say that all of
    these calls returned, and with what. *)

(** The value [_get_boolean_merge_metrics_flag] makes of the [merge_metrics]
    parameter. *)
Definition merge_flag_of (h : Helpers) (param flag : pyval) : Prop :=
  if is_False param then flag = PyBool false else h_str_2_bool h param = Ok flag.

Definition get_metrics_prepared (h : Helpers) (self : Metrics) (req : falcon.Request)
    (tenant_id name dimensions offset : pyval) (limit : Z) : Prop :=
  h_validate_authorization h req (_default_authorized_roles self) = Ok tt /\
  h_get_tenant_id h req = Ok tenant_id /\
  h_get_query_name h req [] = Ok name /\
  h_validate_query_name h name = Ok tt /\
  h_get_query_dimensions h req = Ok dimensions /\
  h_validate_query_dimensions h dimensions = Ok tt /\
  h_get_query_param h req "offset" [] = Ok offset /\
  h_get_limit h req = Ok limit.

Definition get_metric_names_prepared (h : Helpers) (self : Metrics)
    (req : falcon.Request) (tenant_id dimensions offset : pyval) (limit : Z) : Prop :=
  h_validate_authorization h req (_default_authorized_roles self) = Ok tt /\
  h_get_tenant_id h req = Ok tenant_id /\
  h_get_query_dimensions h req = Ok dimensions /\
  h_validate_query_dimensions h dimensions = Ok tt /\
  h_get_query_param h req "offset" [] = Ok offset /\
  h_get_limit h req = Ok limit.

Definition get_measurements_prepared (h : Helpers) (self : Metrics)
    (req : falcon.Request)
    (tenant_id name dimensions start_timestamp end_timestamp offset : pyval)
    (limit : Z) (merge_metrics_flag : pyval) : Prop :=
  h_validate_authorization h req (_default_authorized_roles self) = Ok tt /\
  h_get_tenant_id h req = Ok tenant_id /\
  h_get_query_name h req [PyBool true] = Ok name /\
  h_validate_query_name h name = Ok tt /\
  h_get_query_dimensions h req = Ok dimensions /\
  h_validate_query_dimensions h dimensions = Ok tt /\
  h_get_query_starttime_timestamp h req = Ok start_timestamp /\
  h_get_query_endtime_timestamp h req [PyBool false] = Ok end_timestamp /\
  h_get_query_param h req "offset" [] = Ok offset /\
  h_get_limit h req = Ok limit /\
  exists param,
    h_get_query_param h req "merge_metrics" [PyBool false; PyBool false] = Ok param /\
    merge_flag_of h param merge_metrics_flag.

Definition get_statistics_prepared (h : Helpers) (self : Metrics)
    (req : falcon.Request)
    (tenant_id name dimensions start_timestamp end_timestamp statistics period
     offset : pyval) (limit : Z) (merge_metrics_flag : pyval) : Prop :=
  h_validate_authorization h req (_default_authorized_roles self) = Ok tt /\
  h_get_tenant_id h req = Ok tenant_id /\
  h_get_query_name h req [PyBool true] = Ok name /\
  h_validate_query_name h name = Ok tt /\
  h_get_query_dimensions h req = Ok dimensions /\
  h_validate_query_dimensions h dimensions = Ok tt /\
  h_get_query_starttime_timestamp h req = Ok start_timestamp /\
  h_get_query_endtime_timestamp h req [PyBool false] = Ok end_timestamp /\
  h_get_query_statistics h req = Ok statistics /\
  h_get_query_period h req = Ok period /\
  h_get_query_param h req "offset" [] = Ok offset /\
  h_get_limit h req = Ok limit /\
  exists param,
    h_get_query_param h req "merge_metrics" [PyBool false; PyBool false] = Ok param /\
    merge_flag_of h param merge_metrics_flag.

(** A read ended well: the reader's envelope, serialized, is the body of a
    200. *)
Definition served (h : Helpers) (reader : M Envelope) (sent : falcon.Response) : Prop :=
  exists envelope body,
    outcome reader = Ok envelope /\
    h_dumpit_utf8 h envelope = Ok body /\
    sent = falcon.mkResponse falcon.HTTP_200 (Some body).

(** The controller with another repository in place of its own. *)
Definition with_repo (self : Metrics) (repo : MetricsRepo) : Metrics :=
  mkMetrics (_region self) (_default_authorized_roles self)
    (_delegate_authorized_roles self) (_post_metrics_authorized_roles self)
    (_metrics_transform self) (_message_queue self) repo.

(** Two repositories answer alike every query about one tenant in one
    region. *)
Definition repos_agree (tenant_id region : pyval) (a b : MetricsRepo) : Prop :=
  (forall name dimensions offset limit,
     list_metrics a tenant_id region name dimensions offset limit
     = list_metrics b tenant_id region name dimensions offset limit) /\
  (forall dimensions offset limit,
     list_metric_names a tenant_id region dimensions offset limit
     = list_metric_names b tenant_id region dimensions offset limit) /\
  (forall name dimensions start_timestamp end_timestamp offset limit merge,
     measurement_list a tenant_id region name dimensions start_timestamp
       end_timestamp offset limit merge
     = measurement_list b tenant_id region name dimensions start_timestamp
         end_timestamp offset limit merge) /\
  (forall name dimensions start_timestamp end_timestamp statistics period offset
          limit merge,
     metrics_statistics a tenant_id region name dimensions start_timestamp
       end_timestamp statistics period offset limit merge
     = metrics_statistics b tenant_id region name dimensions start_timestamp
         end_timestamp statistics period offset limit merge).

(** A repository holding another tenant's rows as well: it answers [page]
    for [tenant_42] and [others] for everyone else. *)
Definition shared_repo (page others : list pyval) : MetricsRepo :=
  let rows tenant_id :=
    match tenant_id with
    | PyText t => if text_eqb t (u "42") then page else others
    | _ => others
    end in
  mkMetricsRepo (fun t _ _ _ _ _ => Ok (rows t))
                (fun t _ _ _ _ => Ok (rows t))
                (fun t _ _ _ _ _ _ _ _ => Ok (rows t))
                (fun t _ _ _ _ _ _ _ _ _ _ => Ok (rows t)).

(** The helpers [h] with another answer of [get_limit]. *)
Definition with_limit (h : Helpers) (limit : result exn Z) : Helpers :=
  mkHelpers (h_validate_json_content_type h) (h_validate_authorization h)
    (h_read_http_resource h) (h_get_x_tenant_or_tenant_id h) (h_get_tenant_id h)
    (h_get_query_name h) (h_validate_query_name h) (h_get_query_dimensions h)
    (h_validate_query_dimensions h) (h_get_query_starttime_timestamp h)
    (h_get_query_endtime_timestamp h) (h_get_query_statistics h)
    (h_get_query_period h) (h_get_query_param h) (fun _ => limit)
    (h_str_2_bool h) (h_dumpit_utf8 h) (h_metric_cursor h)
    (h_measurement_cursor h) (h_statistics_cursor h) (h_with_offset h).

(** ** Construction: [Metrics.__init__]

    [__init__] calls the base initializer, reads the configuration and loads
    the transform and the two drivers, all inside one [try]; anything raised
    there is logged and becomes an [HTTPInternalServerError].  The base
    class, [cfg.CONF], the transform factory and [resource_api.init_driver]
    are not part of the sources: what each read or call gives is a field of
    [Startup]. *)

(** An exception as the [except Exception as ex] clause sees it: its class
    and its [message]. *)
Record py_exception : Type := mkException {
  exc_name : string;
  exc_message : pyval
}.

Definition as_exn (ex : py_exception) : exn :=
  OtherException (exc_name ex) (exc_message ex).

(** The two driver namespaces [__init__] loads from, and what a driver of
    each is. *)
Inductive namespace : Type :=
| monasca_messaging       (* 'monasca.messaging' *)
| monasca_repositories.   (* 'monasca.repositories' *)

Definition driver (ns : namespace) : Type :=
  match ns with
  | monasca_messaging => MessageQueue
  | monasca_repositories => MetricsRepo
  end.

Record Startup : Type := mkStartup {
  super_init : result py_exception unit;
  conf_region : result py_exception pyval;
  conf_default_authorized_roles : result py_exception (list string);
  conf_delegate_authorized_roles : result py_exception (list string);
  conf_agent_authorized_roles : result py_exception (list string);
  conf_messaging_driver : result py_exception string;
  conf_repositories_metrics_driver : result py_exception string;
  create_metrics_transform :
    result py_exception (pyval -> pyval -> pyval -> result exn pyval);
  (* init_driver(namespace, name) and init_driver(namespace, name, args) *)
  init_driver :
    forall ns : namespace, string -> option (list string)
                           -> result py_exception (driver ns)
}.

Definition HTTP_500 : string := "500 Internal Server Error".

Definition HTTPInternalServerError (title : string) (description : pyval)
  : falcon.HTTPError :=
  falcon.mkHTTPError HTTP_500 title description None.

(** The [try] block of [__init__]. *)
Definition configure (start : Startup) : result py_exception Metrics :=
  (super_init start ;;
   region <- conf_region start ;;
   default_authorized_roles <- conf_default_authorized_roles start ;;
   delegate_authorized_roles <- conf_delegate_authorized_roles start ;;
   default_roles <- conf_default_authorized_roles start ;;
   agent_roles <- conf_agent_authorized_roles start ;;
   metrics_transform <- create_metrics_transform start ;;
   messaging_driver <- conf_messaging_driver start ;;
   message_queue <- init_driver start monasca_messaging messaging_driver
                      (Some ["metrics"]) ;;
   metrics_driver <- conf_repositories_metrics_driver start ;;
   metrics_repo <- init_driver start monasca_repositories metrics_driver None ;;
   Ok (mkMetrics region default_authorized_roles delegate_authorized_roles
         (default_roles ++ agent_roles)%list metrics_transform message_queue
         metrics_repo))%res.

Definition __init__ (start : Startup) : M Metrics :=
  match configure start with
  | Ok self => ret self
  | Raise ex =>
      (LOG.exception (as_exn ex) ;;
       raise (HTTP (HTTPInternalServerError "Service unavailable" (exc_message ex))))%M
  end.

(** A configuration and drivers that load, with the given answer of the
    repository driver's loader. *)
Definition sample_startup (repo : result py_exception MetricsRepo) : Startup :=
  {| super_init := Ok tt;
     conf_region := Ok (PyText (Str "useast"));
     conf_default_authorized_roles := Ok ["user"; "admin"];
     conf_delegate_authorized_roles := Ok ["admin"];
     conf_agent_authorized_roles := Ok ["agent"];
     conf_messaging_driver := Ok "kafka";
     conf_repositories_metrics_driver := Ok "influxdb";
     create_metrics_transform := Ok metrics_transform_factory.create_metrics_transform;
     init_driver := fun ns =>
       match ns with
       | monasca_messaging => fun _ _ => Ok (mkMessageQueue (fun _ => Ok tt))
       | monasca_repositories => fun _ _ => repo
       end |}.

(** What [__init__] builds from [sample_startup] when the repository driver
    loads. *)
Definition sample_constructed (repo : MetricsRepo) : Metrics :=
  {| _region := PyText (Str "useast");
     _default_authorized_roles := ["user"; "admin"];
     _delegate_authorized_roles := ["admin"];
     _post_metrics_authorized_roles := ["user"; "admin"; "agent"];
     _metrics_transform := metrics_transform_factory.create_metrics_transform;
     _message_queue := mkMessageQueue (fun _ => Ok tt);
     _metrics_repo := repo |}.

(** ** Facts about text and dictionaries *)

Lemma codes_eqb_refl (a : list N) : codes_eqb a a = true.
Proof.
  induction a as [|x a IH]; simpl; [reflexivity|].
  now rewrite N.eqb_refl, IH.
Qed.

Lemma codes_eqb_sym (a b : list N) : codes_eqb a b = codes_eqb b a.
Proof.
  revert b; induction a as [|x a IH]; intros [|y b]; simpl; try reflexivity.
  now rewrite N.eqb_sym, IH.
Qed.

Lemma text_eqb_refl (t : pytext) : text_eqb t t = true.
Proof.
  destruct t as [s|u]; simpl.
  - apply String.eqb_refl.
  - apply codes_eqb_refl.
Qed.

Lemma text_eqb_sym (a b : pytext) : text_eqb a b = text_eqb b a.
Proof.
  destruct a as [x|x], b as [y|y]; simpl; try reflexivity.
  - apply String.eqb_sym.
  - apply codes_eqb_sym.
Qed.

Lemma dict_get_None_In items k k' v :
  dict_get items k = None -> In (k', v) items -> text_eqb k k' = false.
Proof.
  induction items as [|[k0 v0] rest IH]; simpl; [tauto|].
  destruct (text_eqb k k0) eqn:E; [discriminate|].
  intros Hn [Heq|Hin].
  - now inversion Heq; subst.
  - now apply IH.
Qed.

Lemma dict_get_wf_In items k v :
  dict_wf items -> In (k, v) items -> dict_get items k = Some v.
Proof.
  induction items as [|[k0 v0] rest IH]; simpl; [tauto|].
  intros [Hn Hwf] [Heq|Hin].
  - inversion Heq; subst. now rewrite text_eqb_refl.
  - rewrite text_eqb_sym, (dict_get_None_In _ _ _ _ Hn Hin). now apply IH.
Qed.

(** ** The loop *)

Lemma for_each_ok {A} (xs : list A) (body : A -> raises unit) :
  for_each xs body = Ok tt <-> Forall (fun x => body x = Ok tt) xs.
Proof.
  induction xs as [|x xs IH]; simpl.
  - split; [constructor | reflexivity].
  - destruct (body x) as [[]|e] eqn:E; simpl.
    + rewrite IH. split.
      * now constructor.
      * intros H; now inversion H.
    + split; [discriminate|]. intros H; inversion H; congruence.
Qed.

Lemma for_each_raise {A} (pre post : list A) (x : A) (body : A -> raises unit) ex :
  Forall (fun y => body y = Ok tt) pre ->
  body x = Raise ex ->
  for_each (pre ++ x :: post) body = Raise ex.
Proof.
  induction pre as [|y pre IH]; simpl; intros Hpre Hx.
  - now rewrite Hx.
  - inversion Hpre; subst. rewrite H1; simpl. now apply IH.
Qed.

Lemma for_each_first_failure {A} (xs : list A) (body : A -> raises unit) ex :
  for_each xs body = Raise ex ->
  exists pre x post,
    xs = (pre ++ x :: post)%list /\
    Forall (fun y => body y = Ok tt) pre /\ body x = Raise ex.
Proof.
  induction xs as [|y xs IH]; simpl; [discriminate|].
  destruct (body y) as [[]|e] eqn:E; simpl.
  - intros H. destruct (IH H) as (pre & x & post & -> & Hpre & Hx).
    exists (y :: pre), x, post. repeat split; auto.
  - intros H; inversion H; subst.
    exists [], y, xs. repeat split; auto.
Qed.

(** ** The validator *)

Lemma assert_ok (b : bool) : assert b = Ok tt <-> b = true.
Proof. destruct b; simpl; split; congruence. Qed.

(** A metric the validator accepts is a mapping. *)
Lemma validate_single_metric_dict metric :
  _validate_single_metric metric = Ok tt -> exists items, metric = PyDict items.
Proof.
  destruct metric as [| | | | | |[s|u]| |items]; try discriminate.
  intros _; now exists items.
Qed.

Lemma check_dimension_ok items dims k v :
  dict_get items (Str "dimensions") = Some (PyDict dims) ->
  dict_get dims k = Some v ->
  check_dimension (PyDict items) (PyText k) = Ok tt
  <-> (len_text k <=? 255)%Z && text_within 255 v = true.
Proof.
  intros Hd Hk. unfold check_dimension, getitem. rewrite Hd.
  destruct (len_text k <=? 255)%Z; cbn [assert rbind andb]; [|split; discriminate].
  rewrite Hk. cbn [rbind].
  destruct v as [| | | | | |t| |]; try (split; discriminate).
  replace (isinstance (PyText t) [t_str; t_unicode]) with true by (now destruct t).
  cbn [assert rbind len text_within]. apply assert_ok.
Qed.

Lemma dimensions_loop_ok items dims :
  dict_get items (Str "dimensions") = Some (PyDict dims) ->
  dict_wf dims ->
  for_each (map (fun kv => PyText (fst kv)) dims) (check_dimension (PyDict items)) = Ok tt
  <-> dimensions_within (Some (PyDict dims)) = true.
Proof.
  intros Hd Hwf. rewrite for_each_ok, Forall_map. simpl.
  rewrite forallb_forall, Forall_forall.
  split; intros H [k v] Hin; specialize (H _ Hin); simpl in *.
  - now apply (check_dimension_ok items dims k v Hd (dict_get_wf_In _ _ _ Hwf Hin)).
  - now apply (check_dimension_ok items dims k v Hd (dict_get_wf_In _ _ _ Hwf Hin)).
Qed.

Lemma isinstance_text t : isinstance (PyText t) [t_str; t_unicode] = true.
Proof. now destruct t. Qed.

Ltac py_step := cbn [rbind assert len text_within andb].
Ltac py_types := cbn [isinstance existsb issubclass type_of pytype_eqb orb].
Ltac py_absurd := py_step; py_types; py_step; split; intros H; discriminate H.
(* the run stops at a failed assertion or a missing key *)
Ltac py_stops :=
  split; [|intros H; discriminate H]; py_step;
  repeat (match goal with
          | |- context [assert ?b] => destruct b
          | |- context [rbind (len ?v) _] => destruct v
          end; py_step);
  intros H; discriminate H.

(** The validator accepts exactly the metrics that pass the checks as the code
    has them. *)
Lemma validate_single_metric_exact metric :
  dimensions_is_mapping metric ->
  _validate_single_metric metric = Ok tt <-> code_valid_metric metric = true.
Proof.
  intros Hdims.
  destruct metric as [| | | | | |[s|u]| |items];
    try (split; intros H; discriminate H).
  unfold dimensions_is_mapping, code_valid_metric, checks, field in *.
  unfold _validate_single_metric, getitem, contains, is_number.
  destruct (dict_get items (Str "name")) as [name|]; [|py_absurd].
  destruct (dict_get items (Str "timestamp")) as [timestamp|]; [|py_stops].
  destruct (dict_get items (Str "value")) as [value|]; [|py_stops].
  py_step.
  destruct name as [| | | | | |t| |]; try py_absurd.
  rewrite isinstance_text. py_step.
  destruct (len_text t <=? 64)%Z; [|py_absurd]. py_step.
  destruct (isinstance timestamp [t_int; t_float]); [|py_absurd].
  py_step.
  destruct (isinstance value _); [|py_absurd].
  py_step.
  destruct (dict_get items (Str "dimensions")) as [dimensions|] eqn:Hd.
  - destruct dimensions as [| | | | | |t'| |dims]; try contradiction.
    cbn [iter rbind].
    now apply dimensions_loop_ok.
  - tauto.
Qed.

Lemma accepts_ok metric : accepts metric = true <-> _validate_single_metric metric = Ok tt.
Proof.
  unfold accepts. destruct (_validate_single_metric metric) as [[]|ex]; split; congruence.
Qed.

(** Outside Python's [long], the timestamps the code takes are the real
    numbers. *)
Lemma real_timestamp metric :
  timestamp_not_long metric ->
  checks is_real is_number metric = code_valid_metric metric.
Proof.
  unfold timestamp_not_long, code_valid_metric, checks.
  destruct (field metric "name") as [name|]; [|reflexivity].
  destruct (field metric "timestamp") as [timestamp|]; [|reflexivity].
  destruct (field metric "value") as [value|]; [|reflexivity].
  intros Hts.
  destruct timestamp as [| | | | | |[s|c]| |]; try reflexivity; contradiction.
Qed.

(** C1 (as amended).  For a metric whose timestamp is not a Python [long] and
    whose [dimensions], when present, is a mapping, [_validate_single_metric]
    accepts if and only if: the name is text of length at most 64, the
    timestamp is a real number, the value is a number (real or complex), and
    every dimension key and value is text of length at most 255. *)
Theorem validate_single_metric_accepts metric :
  dimensions_is_mapping metric ->
  timestamp_not_long metric ->
  _validate_single_metric metric = Ok tt <-> checks is_real is_number metric = true.
Proof.
  intros Hdims Hts. rewrite (real_timestamp metric Hts).
  now apply validate_single_metric_exact.
Qed.

Lemma validate_single_metric_accepts_cpu_idle :
  _validate_single_metric cpu_idle = Ok tt <-> checks is_real is_number cpu_idle = true.
Proof.
  apply validate_single_metric_accepts; vm_compute; auto.
Defined.

(** C1 as the spec words it fails: a metric whose value is the complex number
    [1+2j] is accepted, and a complex number is not a real number. *)
Lemma complex_value_is_accepted :
  _validate_single_metric complex_valued = Ok tt /\
  spec_valid_metric complex_valued = false.
Proof. split; vm_compute; reflexivity. Qed.

(** The other way round: an integer timestamp too large for a machine integer
    is a real number, and is refused. *)
Example long_timestamp_is_refused :
  _validate_single_metric long_stamped = Raise AssertionError /\
  spec_valid_metric long_stamped = true.
Proof. split; vm_compute; reflexivity. Qed.

(** [True] is an instance of [int]. *)
Example bool_timestamp_is_accepted : _validate_single_metric bool_stamped = Ok tt.
Proof. vm_compute; reflexivity. Qed.

Example cpu_idle_is_accepted : _validate_single_metric cpu_idle = Ok tt.
Proof. vm_compute; reflexivity. Qed.

(** Scenario 2 of the spec. *)
Example name_of_65_is_refused :
  String.length name_of_65 = 65%nat /\
  _validate_single_metric long_named = Raise AssertionError.
Proof. split; vm_compute; reflexivity. Qed.

Example missing_name_is_a_key_error :
  _validate_single_metric nameless = Raise (KeyError (PyText (Str "name"))).
Proof. vm_compute; reflexivity. Qed.

Example non_mapping_is_a_type_error :
  _validate_single_metric (PyInt 5)
  = Raise (TypeError "'int' object has no attribute '__getitem__'").
Proof. vm_compute; reflexivity. Qed.

(** ** Batches *)

Lemma validate_each_list ms :
  validate_each (PyList ms) = for_each ms _validate_single_metric.
Proof. reflexivity. Qed.

Lemma validate_each_single metric :
  isinstance metric [t_list] = false ->
  validate_each metric = _validate_single_metric metric.
Proof. unfold validate_each. now intros ->. Qed.

Lemma validate_each_elements batch :
  validate_each batch = for_each (batch_elements batch) _validate_single_metric.
Proof.
  destruct batch as [| | | | | |[s|c]| |]; try reflexivity;
    cbn [batch_elements for_each];
    (rewrite validate_each_single by reflexivity);
    now destruct (_validate_single_metric _) as [[]|].
Qed.

Lemma validate_metrics_ok metrics :
  validate_each metrics = Ok tt -> _validate_metrics metrics = ret tt.
Proof. unfold _validate_metrics. now intros ->. Qed.

Lemma validate_metrics_raise metrics ex :
  validate_each metrics = Raise ex ->
  _validate_metrics metrics
  = ([EvLogDebug ex], Raise (HTTP (falcon.HTTPBadRequest "Bad request" (message ex)))).
Proof. unfold _validate_metrics. now intros ->. Qed.

Lemma forallb_accepts ms :
  forallb accepts ms = true <-> Forall (fun m => _validate_single_metric m = Ok tt) ms.
Proof.
  rewrite forallb_forall, Forall_forall.
  split; intros H m Hin; apply accepts_ok; auto.
Qed.

(** C8.  [_validate_metrics] takes a single metric or a list of metrics: a
    value that is not a list is checked as one metric; a list is accepted
    exactly when each of its elements is, on its own; the first element that
    fails ends the run with its error, whatever follows it; the empty list
    passes. *)
Theorem validate_metrics_single_or_sequence :
  (forall metric, isinstance metric [t_list] = false ->
     outcome (_validate_metrics metric) = Ok tt
     <-> _validate_single_metric metric = Ok tt) /\
  (forall ms, outcome (_validate_metrics (PyList ms)) = Ok tt
              <-> Forall (fun m => _validate_single_metric m = Ok tt) ms) /\
  (forall pre m post ex,
     Forall (fun m => _validate_single_metric m = Ok tt) pre ->
     _validate_single_metric m = Raise ex ->
     _validate_metrics (PyList (pre ++ m :: post))
     = ([EvLogDebug ex],
        Raise (HTTP (falcon.HTTPBadRequest "Bad request" (message ex))))) /\
  _validate_metrics (PyList []) = ret tt.
Proof.
  split; [|split; [|split; [|reflexivity]]].
  - intros metric Hsingle. unfold _validate_metrics.
    rewrite (validate_each_single _ Hsingle).
    destruct (_validate_single_metric metric) as [[]|ex]; cbn; split; congruence.
  - intros ms. rewrite <- for_each_ok, <- validate_each_list.
    unfold _validate_metrics.
    destruct (validate_each (PyList ms)) as [[]|ex]; cbn; split; congruence.
  - intros pre m post ex Hpre Hm. apply validate_metrics_raise.
    rewrite validate_each_list. now apply for_each_raise.
Qed.

Example batch_of_two_is_accepted :
  _validate_metrics (PyList [cpu_idle; bool_stamped]) = ret tt.
Proof. vm_compute; reflexivity. Qed.

Example batch_stops_at_first_failure :
  _validate_metrics (PyList [cpu_idle; nameless; long_named])
  = ([EvLogDebug (KeyError (PyText (Str "name")))],
     Raise (HTTP (falcon.HTTPBadRequest "Bad request" (PyText (Str "name"))))).
Proof. vm_compute; reflexivity. Qed.

(** C4 (as amended).  For every batch with at least one invalid metric,
    [_validate_metrics] raises a single [HTTPBadRequest] titled "Bad request"
    whose description is the message of the exception the first invalid
    metric raised, and nothing of the batch is accepted: the outcome is that
    error whatever the metrics before and after it are. *)
Theorem invalid_batch_is_rejected_whole batch :
  forallb accepts (batch_elements batch) = false ->
  exists pre m post ex,
    batch_elements batch = (pre ++ m :: post)%list /\
    forallb accepts pre = true /\
    _validate_single_metric m = Raise ex /\
    _validate_metrics batch
    = ([EvLogDebug ex],
       Raise (HTTP (falcon.HTTPBadRequest "Bad request" (message ex)))).
Proof.
  intros Hbad.
  destruct (validate_each batch) as [[]|ex] eqn:E.
  - rewrite validate_each_elements, for_each_ok, <- forallb_accepts in E. congruence.
  - pose proof E as E'. rewrite validate_each_elements in E'.
    destruct (for_each_first_failure _ _ _ E') as (pre & m & post & Heq & Hpre & Hm).
    exists pre, m, post, ex. repeat split; auto.
    + now apply forallb_accepts.
    + now apply validate_metrics_raise.
Qed.

Lemma invalid_batch_is_rejected_whole_example :
  exists pre m post ex,
    batch_elements (PyList [cpu_idle; long_named]) = (pre ++ m :: post)%list /\
    forallb accepts pre = true /\
    _validate_single_metric m = Raise ex /\
    _validate_metrics (PyList [cpu_idle; long_named])
    = ([EvLogDebug ex],
       Raise (HTTP (falcon.HTTPBadRequest "Bad request" (message ex)))).
Proof.
  apply (invalid_batch_is_rejected_whole (PyList [cpu_idle; long_named])).
  vm_compute; reflexivity.
Defined.

(** C4 as the spec words it fails: the second metric of this batch has a name
    of 65 characters, and the description of the error is empty; it names
    neither the field nor the metric's index. *)
Lemma bad_request_names_no_field_or_index :
  _validate_metrics (PyList [cpu_idle; long_named])
  = ([EvLogDebug AssertionError],
     Raise (HTTP (falcon.HTTPBadRequest "Bad request" (PyText (Str ""))))) /\
  mentions "name" (PyText (Str "")) = false /\
  mentions "1" (PyText (Str "")) = false.
Proof. repeat split; vm_compute; reflexivity. Qed.

(** A metric that is accepted has its three required fields. *)
Lemma accepted_has_fields metric :
  _validate_single_metric metric = Ok tt ->
  field metric "name" <> None /\ field metric "timestamp" <> None /\
  field metric "value" <> None.
Proof.
  destruct metric as [| | | | | |[s|c]| |items]; try discriminate.
  unfold _validate_single_metric, getitem, field.
  destruct (dict_get items (Str "name")) as [name|]; [|discriminate].
  destruct (dict_get items (Str "timestamp")) as [timestamp|].
  2:{ py_step. destruct (assert _); py_step; [|discriminate].
      destruct (len name); py_step; [|discriminate].
      destruct (assert _); py_step; discriminate. }
  destruct (dict_get items (Str "value")) as [value|].
  2:{ py_step. destruct (assert _); py_step; [|discriminate].
      destruct (len name); py_step; [|discriminate].
      destruct (assert _); py_step; [|discriminate].
      destruct (assert _); py_step; discriminate. }
  intros _. repeat split; discriminate.
Qed.

(** C10.  Whatever [_validate_metrics] is given, it returns or raises
    [HTTPBadRequest] (400): every exception of the checks is caught, logged
    and converted.  In particular a metric that is no mapping (nor a list of
    metrics), and a mapping without [name], [timestamp] or [value], end in
    that error. *)
Theorem validate_metrics_raises_only_bad_request metrics :
  (_validate_metrics metrics = ret tt \/
   exists ex,
     _validate_metrics metrics
     = ([EvLogDebug ex],
        Raise (HTTP (falcon.mkHTTPError falcon.HTTP_400 "Bad request" (message ex) None)))) /\
  (isinstance metrics [t_list; t_dict] = false ->
   exists msg,
     outcome (_validate_metrics metrics)
     = Raise (HTTP (falcon.HTTPBadRequest "Bad request" (PyText (Str msg))))) /\
  (isinstance metrics [t_dict] = true ->
   field metrics "name" = None \/ field metrics "timestamp" = None \/
   field metrics "value" = None ->
   exists description,
     outcome (_validate_metrics metrics)
     = Raise (HTTP (falcon.HTTPBadRequest "Bad request" description))).
Proof.
  split; [|split].
  - destruct (validate_each metrics) as [[]|ex] eqn:E.
    + left. now apply validate_metrics_ok.
    + right. exists ex. now apply validate_metrics_raise.
  - intros Hty.
    destruct metrics as [| | | | | |[s|c]| |]; try discriminate Hty;
      eexists; vm_compute; reflexivity.
  - intros Hty Hmissing.
    destruct (validate_each metrics) as [[]|ex] eqn:E.
    + rewrite validate_each_single in E
        by (destruct metrics as [| | | | | |[s|c]| |]; try discriminate Hty; reflexivity).
      destruct (accepted_has_fields _ E) as (Hn & Ht & Hv). tauto.
    + exists (message ex). now rewrite (validate_metrics_raise _ _ E).
Qed.

(** ** The write path *)

(** Every way [do_post_metrics] can run, by the outcomes of the calls it
    makes. *)
Lemma do_post_metrics_run h self req res :
  let roles := _post_metrics_authorized_roles self in
  let delegates := _delegate_authorized_roles self in
  let checked := [EvValidateJsonContentType; EvValidateAuthorization roles] in
  do_post_metrics h self req res =
  match h_validate_json_content_type h req with
  | Raise e => ([EvValidateJsonContentType], Raise e)
  | Ok _ =>
  match h_validate_authorization h req roles with
  | Raise f => (checked, Raise (auth_error f))
  | Ok _ =>
  match h_read_http_resource h req with
  | Raise e => (checked ++ [EvReadHttpResource], Raise e)%list
  | Ok metrics =>
  match validate_each metrics with
  | Raise ex =>
      (checked ++ [EvReadHttpResource; EvLogDebug ex],
       Raise (HTTP (falcon.HTTPBadRequest "Bad request" (message ex))))%list
  | Ok _ =>
  match h_get_x_tenant_or_tenant_id h req delegates with
  | Raise e =>
      (checked ++ [EvReadHttpResource; EvGetXTenantOrTenantId delegates], Raise e)%list
  | Ok tenant_id =>
  match _metrics_transform self metrics tenant_id (_region self) with
  | Raise e =>
      (checked ++ [EvReadHttpResource; EvGetXTenantOrTenantId delegates;
                   EvMetricsTransform], Raise e)%list
  | Ok transformed =>
  match send_message_batch (_message_queue self) transformed with
  | Ok _ =>
      (checked ++ [EvReadHttpResource; EvGetXTenantOrTenantId delegates;
                   EvMetricsTransform; EvSendMessageBatch transformed],
       Ok (falcon.mkResponse falcon.HTTP_204 (falcon.res_body res)))%list
  | Raise (MessageQueueException msg) =>
      (checked ++ [EvReadHttpResource; EvGetXTenantOrTenantId delegates;
                   EvMetricsTransform; EvSendMessageBatch transformed;
                   EvLogException (MessageQueueException msg)],
       Raise (HTTP (falcon.HTTPServiceUnavailable "Service unavailable" msg 60)))%list
  | Raise e =>
      (checked ++ [EvReadHttpResource; EvGetXTenantOrTenantId delegates;
                   EvMetricsTransform; EvSendMessageBatch transformed],
       Raise e)%list
  end end end end end end end.
Proof.
  cbv zeta.
  unfold do_post_metrics, helpers.validate_json_content_type,
    helpers.validate_authorization, helpers.read_http_resource,
    helpers.get_x_tenant_or_tenant_id, _send_metrics, _validate_metrics, call.
  destruct (h_validate_json_content_type h req) as [[]|e0]; [|reflexivity].
  destruct (h_validate_authorization h req _) as [[]|f]; [|reflexivity].
  destruct (h_read_http_resource h req) as [metrics|e1]; [|reflexivity].
  cbn [bind lift_auth app].
  destruct (validate_each metrics) as [[]|ex]; [|reflexivity].
  cbn [bind ret app].
  destruct (h_get_x_tenant_or_tenant_id h req _) as [tenant_id|e2]; [|reflexivity].
  destruct (_metrics_transform self metrics tenant_id _) as [transformed|e3];
    [|reflexivity].
  destruct (send_message_batch _ transformed) as [[]|[e|msg|name msg]]; reflexivity.
Qed.

(** C3.  In a POST that reaches the queue (content type, authorization, body
    and tenant all passed, the batch is transformed): when the send raises the
    queue's [MessageQueueException] the handler raises
    [HTTPServiceUnavailable] (503) with the retry-after hint 60, and when the
    send returns the response status is 204 No Content. *)
Theorem post_metrics_queue_outcome h self req res metrics tenant_id transformed :
  h_validate_json_content_type h req = Ok tt ->
  h_validate_authorization h req (_post_metrics_authorized_roles self) = Ok tt ->
  h_read_http_resource h req = Ok metrics ->
  validate_each metrics = Ok tt ->
  h_get_x_tenant_or_tenant_id h req (_delegate_authorized_roles self) = Ok tenant_id ->
  _metrics_transform self metrics tenant_id (_region self) = Ok transformed ->
  (forall msg,
     send_message_batch (_message_queue self) transformed
     = Raise (MessageQueueException msg) ->
     outcome (do_post_metrics h self req res)
     = Raise (HTTP (falcon.mkHTTPError falcon.HTTP_503 "Service unavailable" msg
                      (Some 60%Z)))) /\
  (send_message_batch (_message_queue self) transformed = Ok tt ->
   exists sent,
     outcome (do_post_metrics h self req res) = Ok sent /\
     falcon.res_status sent = falcon.HTTP_204).
Proof.
  intros Hct Hauth Hread Hvalid Htenant Htransform.
  rewrite do_post_metrics_run, Hct, Hauth, Hread, Hvalid, Htenant, Htransform.
  split.
  - intros msg ->. reflexivity.
  - intros ->. eexists; split; reflexivity.
Qed.

Lemma post_metrics_queue_outcome_sample :
  let h := sample_helpers (Ok tt) (Ok tt) (Ok cpu_idle) (Ok tenant_42) in
  let self := sample_metrics (Raise (MessageQueueException (PyText (Str "broker down")))) [] in
  let transformed :=
    metrics_transform_factory.transform cpu_idle tenant_42 (_region self) in
  (forall msg,
     send_message_batch (_message_queue self) transformed
     = Raise (MessageQueueException msg) ->
     outcome (do_post_metrics h self sample_request fresh_response)
     = Raise (HTTP (falcon.mkHTTPError falcon.HTTP_503 "Service unavailable" msg
                      (Some 60%Z)))) /\
  (send_message_batch (_message_queue self) transformed = Ok tt ->
   exists sent,
     outcome (do_post_metrics h self sample_request fresh_response) = Ok sent /\
     falcon.res_status sent = falcon.HTTP_204).
Proof.
  cbv zeta.
  apply (post_metrics_queue_outcome _ _ _ _ cpu_idle tenant_42); reflexivity.
Defined.

(** Scenario 5 of the spec: the queue reports a failure. *)
Example post_with_queue_down :
  do_post_metrics (sample_helpers (Ok tt) (Ok tt) (Ok cpu_idle) (Ok tenant_42))
    (sample_metrics (Raise (MessageQueueException (PyText (Str "broker down")))) [])
    sample_request fresh_response
  = ([EvValidateJsonContentType;
      EvValidateAuthorization ["user"; "admin"; "agent"];
      EvReadHttpResource;
      EvGetXTenantOrTenantId ["admin"];
      EvMetricsTransform;
      EvSendMessageBatch
        (metrics_transform_factory.transform cpu_idle tenant_42 (PyText (Str "useast")));
      EvLogException (MessageQueueException (PyText (Str "broker down")))],
     Raise (HTTP (falcon.HTTPServiceUnavailable "Service unavailable"
                    (PyText (Str "broker down")) 60))).
Proof. vm_compute; reflexivity. Qed.

(** Scenario 1 of the spec: one metric, accepted and sent. *)
Example post_accepted :
  do_post_metrics (sample_helpers (Ok tt) (Ok tt) (Ok cpu_idle) (Ok tenant_42))
    (sample_metrics (Ok tt) []) sample_request fresh_response
  = ([EvValidateJsonContentType;
      EvValidateAuthorization ["user"; "admin"; "agent"];
      EvReadHttpResource;
      EvGetXTenantOrTenantId ["admin"];
      EvMetricsTransform;
      EvSendMessageBatch
        (metrics_transform_factory.transform cpu_idle tenant_42 (PyText (Str "useast")))],
     Ok (falcon.mkResponse "204 No Content" None)).
Proof. vm_compute; reflexivity. Qed.

Ltac in_cases H :=
  unfold trace in H; cbn [fst In app] in H;
  repeat (destruct H as [H|H]; [try discriminate H|]); try contradiction.

(** C5.  In every POST the queue send happens only after the content-type
    check, the authorization, the body read and the validation of the whole
    batch (and the tenant resolution) have succeeded.  A body that fails
    validation ends the request with [HTTPBadRequest] (400), a client error,
    and no side-effecting call is made; and the only side-effecting call a
    POST ever makes is the queue send. *)
Theorem queue_send_only_after_validation h self req res :
  (forall batch,
     In (EvSendMessageBatch batch) (trace (do_post_metrics h self req res)) ->
     h_validate_json_content_type h req = Ok tt /\
     h_validate_authorization h req (_post_metrics_authorized_roles self) = Ok tt /\
     exists metrics tenant_id,
       h_read_http_resource h req = Ok metrics /\
       validate_each metrics = Ok tt /\
       h_get_x_tenant_or_tenant_id h req (_delegate_authorized_roles self) = Ok tenant_id /\
       _metrics_transform self metrics tenant_id (_region self) = Ok batch) /\
  (forall metrics ex,
     In EvReadHttpResource (trace (do_post_metrics h self req res)) ->
     h_read_http_resource h req = Ok metrics ->
     validate_each metrics = Raise ex ->
     outcome (do_post_metrics h self req res)
     = Raise (HTTP (falcon.mkHTTPError falcon.HTTP_400 "Bad request" (message ex) None)) /\
     existsb side_effecting (trace (do_post_metrics h self req res)) = false) /\
  (forall ev,
     In ev (trace (do_post_metrics h self req res)) ->
     side_effecting ev = true ->
     exists batch, ev = EvSendMessageBatch batch).
Proof.
  rewrite do_post_metrics_run. cbv zeta.
  destruct (h_validate_json_content_type h req) as [[]|e0].
  2:{ repeat split; intros; try in_cases H; subst; discriminate. }
  destruct (h_validate_authorization h req _) as [[]|f].
  2:{ repeat split; intros; try in_cases H; subst; discriminate. }
  destruct (h_read_http_resource h req) as [metrics|e1].
  2:{ repeat split; intros; try in_cases H; subst; discriminate. }
  destruct (validate_each metrics) as [[]|ex] eqn:Hvalid.
  2:{ split; [|split].
      - intros batch H. in_cases H.
      - intros metrics' ex' _ Hread Hvalid'.
        inversion Hread; subst metrics'.
        rewrite Hvalid in Hvalid'. inversion Hvalid'; subst ex'.
        split; reflexivity.
      - intros ev H Hside. in_cases H; subst; discriminate. }
  destruct (h_get_x_tenant_or_tenant_id h req _) as [tenant_id|e2].
  2:{ split; [|split].
      - intros batch H. in_cases H.
      - intros metrics' ex' _ Hread Hvalid'.
        inversion Hread; subst metrics'. congruence.
      - intros ev H Hside. in_cases H; subst; discriminate. }
  destruct (_metrics_transform self metrics tenant_id _) as [transformed|e3] eqn:Htr.
  2:{ split; [|split].
      - intros batch H. in_cases H.
      - intros metrics' ex' _ Hread Hvalid'.
        inversion Hread; subst metrics'. congruence.
      - intros ev H Hside. in_cases H; subst; discriminate. }
  split; [|split].
  - intros batch H.
    assert (batch = transformed) as ->.
    { destruct (send_message_batch _ transformed) as [[]|[e|msg|name msg]];
        unfold trace in H; cbn [fst] in H; in_cases H; now inversion H. }
    repeat split; try reflexivity. exists metrics, tenant_id. auto.
  - intros metrics' ex' _ Hread Hvalid'.
    inversion Hread; subst metrics'. congruence.
  - intros ev H Hside.
    destruct (send_message_batch _ transformed) as [[]|[e|msg|name msg]];
      unfold trace in H; cbn [fst] in H; in_cases H; subst; try discriminate;
      now exists transformed.
Qed.

(** C9 (as amended).  In every POST the body is read and validated before
    the effective tenant is resolved: no run resolves the tenant ahead of
    reading the body, and a run that resolves the tenant has read a body that
    passed validation. *)
Theorem post_validates_body_before_tenant h self req res :
  occurs_before is_resolve_tenant is_read_body
    (trace (do_post_metrics h self req res)) = false /\
  (existsb is_resolve_tenant (trace (do_post_metrics h self req res)) = true ->
   occurs_before is_read_body is_resolve_tenant
     (trace (do_post_metrics h self req res)) = true /\
   exists metrics,
     h_read_http_resource h req = Ok metrics /\ validate_each metrics = Ok tt).
Proof.
  rewrite do_post_metrics_run. cbv zeta.
  destruct (h_validate_json_content_type h req) as [[]|e0];
    [|split; [reflexivity|discriminate]].
  destruct (h_validate_authorization h req _) as [[]|f];
    [|split; [reflexivity|discriminate]].
  destruct (h_read_http_resource h req) as [metrics|e1];
    [|split; [reflexivity|discriminate]].
  destruct (validate_each metrics) as [[]|ex] eqn:Hvalid;
    [|split; [reflexivity|discriminate]].
  assert (Hsome : exists m, Ok metrics = Ok m :> result exn pyval /\ validate_each m = Ok tt)
    by (now exists metrics).
  destruct (h_get_x_tenant_or_tenant_id h req _) as [tenant_id|e2];
    [|split; [reflexivity|intros _; split; [reflexivity|exact Hsome]]].
  destruct (_metrics_transform self metrics tenant_id _) as [transformed|e3];
    [|split; [reflexivity|intros _; split; [reflexivity|exact Hsome]]].
  destruct (send_message_batch _ transformed) as [[]|[e|msg|name msg]];
    (split; [reflexivity|intros _; split; [reflexivity|exact Hsome]]).
Qed.

(** C9 as the spec words it fails.  With a body that is invalid and a caller
    without delegation rights, the request ends in the validation error and
    the tenant is never resolved; and in an accepted request the body is read
    ahead of the tenant resolution, not after it. *)
Lemma body_is_validated_before_tenant_is_resolved :
  let denied := Raise (HTTP (falcon.HTTPForbidden "Forbidden" (PyText (Str "")))) in
  let self := sample_metrics (Ok tt) [] in
  h_get_x_tenant_or_tenant_id
    (sample_helpers (Ok tt) (Ok tt) (Ok long_named) denied)
    sample_request (_delegate_authorized_roles self) = denied /\
  do_post_metrics (sample_helpers (Ok tt) (Ok tt) (Ok long_named) denied) self
    sample_request fresh_response
  = ([EvValidateJsonContentType;
      EvValidateAuthorization ["user"; "admin"; "agent"];
      EvReadHttpResource;
      EvLogDebug AssertionError],
     Raise (HTTP (falcon.HTTPBadRequest "Bad request" (PyText (Str ""))))) /\
  occurs_before is_resolve_tenant is_read_body
    (trace (do_post_metrics (sample_helpers (Ok tt) (Ok tt) (Ok cpu_idle) (Ok tenant_42))
              self sample_request fresh_response)) = false /\
  occurs_before is_read_body is_resolve_tenant
    (trace (do_post_metrics (sample_helpers (Ok tt) (Ok tt) (Ok cpu_idle) (Ok tenant_42))
              self sample_request fresh_response)) = true.
Proof. cbv zeta. repeat split; vm_compute; reflexivity. Qed.

(** ** Authorization *)

Lemma auth_error_status f :
  exists err,
    auth_error f = HTTP err /\
    (falcon.status err = falcon.HTTP_401 \/ falcon.status err = falcon.HTTP_403).
Proof. destruct f as [t d|t d]; eexists; split; try reflexivity; auto. Qed.

Section AuthorizationFirst.
Variables (h : Helpers) (self : Metrics) (req : falcon.Request) (res : falcon.Response).
Variable f : auth_failure.
Hypothesis denied :
  h_validate_authorization h req (_default_authorized_roles self) = Raise f.

Lemma do_get_metrics_denied :
  do_get_metrics h self req res
  = ([EvValidateAuthorization (_default_authorized_roles self)], Raise (auth_error f)).
Proof.
  unfold do_get_metrics, helpers.validate_authorization, call.
  rewrite denied. reflexivity.
Qed.

Lemma do_get_metric_names_denied :
  do_get_metric_names h self req res
  = ([EvValidateAuthorization (_default_authorized_roles self)], Raise (auth_error f)).
Proof.
  unfold do_get_metric_names, helpers.validate_authorization, call.
  rewrite denied. reflexivity.
Qed.

Lemma do_get_measurements_denied :
  do_get_measurements h self req res
  = ([EvValidateAuthorization (_default_authorized_roles self)], Raise (auth_error f)).
Proof.
  unfold do_get_measurements, helpers.validate_authorization, call.
  rewrite denied. reflexivity.
Qed.

Lemma do_get_statistics_denied :
  do_get_statistics h self req res
  = ([EvValidateAuthorization (_default_authorized_roles self)], Raise (auth_error f)).
Proof.
  unfold do_get_statistics, helpers.validate_authorization, call.
  rewrite denied. reflexivity.
Qed.

End AuthorizationFirst.

(** C7.  For each of the five operations, when the handler's call to
    [validate_authorization] fails, the request ends there with the
    authorizer's Forbidden/Unauthorized error and nothing further is done: the
    trace holds no body read, no query normalization, no tenant resolution,
    no transform, no repository call and no queue send.  The four reads
    authorize first, so nothing at all precedes the call; the POST checks the
    content type and then authorizes. *)
Theorem authorization_failure_stops_handler op h self req res f :
  h_validate_authorization h req (required_roles self op) = Raise f ->
  existsb is_authorization (trace (handler op h self req res)) = true ->
  exists before,
    handler op h self req res
    = ((before ++ [EvValidateAuthorization (required_roles self op)])%list,
       Raise (auth_error f)) /\
    existsb processing (trace (handler op h self req res)) = false /\
    (op <> PostMetrics -> before = []).
Proof.
  intros Hdenied Hran.
  destruct op; cbn [handler required_roles] in *.
  - rewrite do_post_metrics_run in *. cbv zeta in *. rewrite Hdenied in *.
    destruct (h_validate_json_content_type h req) as [[]|e0]; [|discriminate Hran].
    exists [EvValidateJsonContentType]. repeat split. congruence.
  - rewrite (do_get_metrics_denied _ _ _ _ _ Hdenied).
    exists []. repeat split.
  - rewrite (do_get_metric_names_denied _ _ _ _ _ Hdenied).
    exists []. repeat split.
  - rewrite (do_get_measurements_denied _ _ _ _ _ Hdenied).
    exists []. repeat split.
  - rewrite (do_get_statistics_denied _ _ _ _ _ Hdenied).
    exists []. repeat split.
Qed.

Lemma authorization_failure_stops_post :
  exists before,
    handler PostMetrics
      (sample_helpers (Ok tt)
         (Raise (Unauthorized "Forbidden" (PyText (Str "missing a required role"))))
         (Ok cpu_idle) (Ok tenant_42))
      (sample_metrics (Ok tt) []) sample_request fresh_response
    = ((before ++ [EvValidateAuthorization ["user"; "admin"; "agent"]])%list,
       Raise (HTTP (falcon.HTTPUnauthorized "Forbidden"
                      (PyText (Str "missing a required role"))))) /\
    existsb processing
      (trace (handler PostMetrics
                (sample_helpers (Ok tt)
                   (Raise (Unauthorized "Forbidden" (PyText (Str "missing a required role"))))
                   (Ok cpu_idle) (Ok tenant_42))
                (sample_metrics (Ok tt) []) sample_request fresh_response)) = false /\
    (PostMetrics <> PostMetrics -> before = []).
Proof.
  apply (authorization_failure_stops_handler PostMetrics
           (sample_helpers (Ok tt)
              (Raise (Unauthorized "Forbidden" (PyText (Str "missing a required role"))))
              (Ok cpu_idle) (Ok tenant_42))
           (sample_metrics (Ok tt) []) sample_request fresh_response
           (Unauthorized "Forbidden" (PyText (Str "missing a required role"))));
    reflexivity.
Defined.

(** The reads authorize before anything else, so for them the failure of the
    authorization alone decides the run. *)
Lemma reads_authorize_first op h self req res :
  op <> PostMetrics ->
  existsb is_authorization (trace (handler op h self req res)) = true.
Proof.
  intros Hop. destruct op; [congruence| | | |];
    cbn [handler]; unfold do_get_metrics, do_get_metric_names, do_get_measurements,
      do_get_statistics, helpers.validate_authorization, call;
    destruct (lift_auth _) as [[]|e]; cbn [bind trace fst];
    match goal with
    | |- context [let (_, _) := ?c in _] => destruct c
    | _ => idtac
    end; reflexivity.
Qed.

(** Whatever else is wrong with the request, when the authorizer refuses the
    caller the handler raises and does no processing. *)
Lemma refused_caller_is_never_served op h self req res f :
  h_validate_authorization h req (required_roles self op) = Raise f ->
  (exists e, outcome (handler op h self req res) = Raise e) /\
  existsb processing (trace (handler op h self req res)) = false.
Proof.
  intros Hdenied.
  destruct op; cbn [handler required_roles] in *.
  - rewrite do_post_metrics_run. cbv zeta. rewrite Hdenied.
    destruct (h_validate_json_content_type h req) as [[]|e0];
      (split; [now eexists|reflexivity]).
  - rewrite (do_get_metrics_denied _ _ _ _ _ Hdenied).
    split; [now eexists|reflexivity].
  - rewrite (do_get_metric_names_denied _ _ _ _ _ Hdenied).
    split; [now eexists|reflexivity].
  - rewrite (do_get_measurements_denied _ _ _ _ _ Hdenied).
    split; [now eexists|reflexivity].
  - rewrite (do_get_statistics_denied _ _ _ _ _ Hdenied).
    split; [now eexists|reflexivity].
Qed.

(** ** The read path: pagination *)

Lemma paginate_with_next h cursor page req_uri limit :
  (0 < limit)%Z ->
  elements (helpers.paginate_with h cursor page req_uri limit) = page /\
  (next (helpers.paginate_with h cursor page req_uri limit) <> None
   <-> Z.of_nat (List.length page) = limit) /\
  ((Z.of_nat (List.length page) < limit)%Z ->
   next (helpers.paginate_with h cursor page req_uri limit) = None).
Proof.
  intros Hlimit. unfold helpers.paginate_with. cbn [elements next].
  split; [reflexivity|].
  destruct (Z.eqb_spec (Z.of_nat (List.length page)) limit) as [Heq|Hne].
  - destruct (rev page) as [|last_element front] eqn:Hrev.
    + apply (f_equal (@List.length pyval)) in Hrev.
      rewrite length_rev in Hrev. cbn in Hrev. lia.
    + split; [split; [auto|discriminate]|lia].
  - split; [split; [congruence|contradiction]|reflexivity].
Qed.

(** What a reader returns when the repository answered with a page. *)
Lemma reader_returns {A} (ev : event) (page : A) (wrap : A -> Envelope) :
  resource.resource_try_catch_block
    (bind (call ev (Ok page)) (fun result => ret (wrap result)))
  = ([ev], Ok (wrap page)).
Proof. reflexivity. Qed.

(** C2.  For every page the repository returns and every positive limit, the
    envelope a reader produces carries the page, has a [next] link exactly
    when the page's length equals the limit, and has none when the page is
    shorter.  This holds for the four readers: metrics, metric names,
    measurements and statistics. *)
Theorem readers_emit_next_on_full_page h self page req_uri limit :
  (0 < limit)%Z ->
  (forall tenant_id name dimensions offset,
     list_metrics (_metrics_repo self) tenant_id (_region self) name dimensions
       offset limit = Ok page ->
     full_page_rule page limit (_list_metrics h self tenant_id name dimensions req_uri offset limit)) /\
  (forall tenant_id dimensions offset,
     list_metric_names (_metrics_repo self) tenant_id (_region self) dimensions
       offset limit = Ok page ->
     full_page_rule page limit (_list_metric_names h self tenant_id dimensions req_uri offset limit)) /\
  (forall tenant_id name dimensions start_timestamp end_timestamp offset merge,
     measurement_list (_metrics_repo self) tenant_id (_region self) name dimensions
       start_timestamp end_timestamp offset limit merge = Ok page ->
     full_page_rule page limit (_measurement_list h self tenant_id name dimensions start_timestamp
                       end_timestamp req_uri offset limit merge)) /\
  (forall tenant_id name dimensions start_timestamp end_timestamp statistics period
          offset merge,
     metrics_statistics (_metrics_repo self) tenant_id (_region self) name dimensions
       start_timestamp end_timestamp statistics period offset limit merge = Ok page ->
     full_page_rule page limit (_metric_statistics h self tenant_id name dimensions start_timestamp
                       end_timestamp statistics period req_uri offset limit merge)).
Proof.
  intros Hlimit. unfold full_page_rule.
  repeat split; intros;
    unfold _list_metrics, _list_metric_names, _measurement_list, _metric_statistics;
    match goal with H : _ = Ok page |- _ => rewrite H end;
    rewrite reader_returns; cbn [outcome snd];
    eexists; (split; [reflexivity|]);
    apply paginate_with_next; assumption.
Qed.

Lemma readers_emit_next_on_full_page_sample :
  let h := sample_helpers (Ok tt) (Ok tt) (Ok cpu_idle) (Ok tenant_42) in
  let page := [cpu_idle; bool_stamped] in
  let self := sample_metrics (Ok tt) page in
  let uri := falcon.uri sample_request in
  (forall tenant_id name dimensions offset,
     list_metrics (_metrics_repo self) tenant_id (_region self) name dimensions
       offset 2 = Ok page ->
     full_page_rule page 2 (_list_metrics h self tenant_id name dimensions uri offset 2)) /\
  (forall tenant_id dimensions offset,
     list_metric_names (_metrics_repo self) tenant_id (_region self) dimensions
       offset 2 = Ok page ->
     full_page_rule page 2 (_list_metric_names h self tenant_id dimensions uri offset 2)) /\
  (forall tenant_id name dimensions start_timestamp end_timestamp offset merge,
     measurement_list (_metrics_repo self) tenant_id (_region self) name dimensions
       start_timestamp end_timestamp offset 2 merge = Ok page ->
     full_page_rule page 2
       (_measurement_list h self tenant_id name dimensions start_timestamp
          end_timestamp uri offset 2 merge)) /\
  (forall tenant_id name dimensions start_timestamp end_timestamp statistics period
          offset merge,
     metrics_statistics (_metrics_repo self) tenant_id (_region self) name dimensions
       start_timestamp end_timestamp statistics period offset 2 merge = Ok page ->
     full_page_rule page 2
       (_metric_statistics h self tenant_id name dimensions start_timestamp
          end_timestamp statistics period uri offset 2 merge)).
Proof.
  cbv zeta.
  apply (readers_emit_next_on_full_page
           (sample_helpers (Ok tt) (Ok tt) (Ok cpu_idle) (Ok tenant_42))
           (sample_metrics (Ok tt) [cpu_idle; bool_stamped])
           [cpu_idle; bool_stamped] (falcon.uri sample_request) 2).
  reflexivity.
Defined.

(** Scenario 3 of the spec: two rows under a limit of 2 give a [next] link,
    two rows under a limit of 3 give none. *)
Example measurements_full_page :
  outcome (_measurement_list (sample_helpers (Ok tt) (Ok tt) (Ok cpu_idle) (Ok tenant_42))
             (sample_metrics (Ok tt) [cpu_idle; bool_stamped])
             tenant_42 (PyText (u "cpu.idle")) (PyDict []) (PyInt 1577836800) PyNone
             "/v2.0/metrics/measurements" PyNone 2 (PyBool false))
  = Ok (mkEnvelope [cpu_idle; bool_stamped]
          (Some "/v2.0/metrics/measurements?offset=timestamp")).
Proof. vm_compute; reflexivity. Qed.

Example measurements_last_page :
  outcome (_measurement_list (sample_helpers (Ok tt) (Ok tt) (Ok cpu_idle) (Ok tenant_42))
             (sample_metrics (Ok tt) [cpu_idle; bool_stamped])
             tenant_42 (PyText (u "cpu.idle")) (PyDict []) (PyInt 1577836800) PyNone
             "/v2.0/metrics/measurements" PyNone 3 (PyBool false))
  = Ok (mkEnvelope [cpu_idle; bool_stamped] None).
Proof. vm_compute; reflexivity. Qed.

(** ** The transform *)

Lemma codes_eqb_eq a b : codes_eqb a b = true <-> a = b.
Proof.
  revert b; induction a as [|x a IH]; intros [|y b]; simpl;
    try (split; [discriminate|congruence]); [tauto|].
  rewrite andb_true_iff, N.eqb_eq, IH. split.
  - now intros [-> ->].
  - intros H; now inversion H.
Qed.

Lemma codes_of_string_inj x y : codes_of_string x = codes_of_string y -> x = y.
Proof.
  unfold codes_of_string. intros H.
  rewrite <- (string_of_list_ascii_of_string x), <- (string_of_list_ascii_of_string y).
  f_equal. revert H.
  generalize (list_ascii_of_string x) (list_ascii_of_string y).
  induction l as [|a l IH]; intros [|b l']; simpl; try discriminate; [reflexivity|].
  intros H; inversion H as [[Hab Hl]]. f_equal; [|now apply IH].
  rewrite <- (ascii_N_embedding a), <- (ascii_N_embedding b). now f_equal.
Qed.

(** [==] on text, spelled out. *)
Lemma text_eqb_true a b :
  text_eqb a b = true <->
  match a, b with
  | Str x, Str y => x = y
  | Unicode x, Unicode y => x = y
  | Str x, Unicode y | Unicode y, Str x => is_ascii x = true /\ codes_of_string x = y
  end.
Proof.
  destruct a as [x|x], b as [y|y]; simpl.
  - apply String.eqb_eq.
  - now rewrite andb_true_iff, codes_eqb_eq.
  - now rewrite andb_true_iff, codes_eqb_eq.
  - apply codes_eqb_eq.
Qed.

(** Two texts equal to a third are equal to each other. *)
Lemma text_eqb_common a b c :
  text_eqb a c = true -> text_eqb b c = true -> text_eqb a b = true.
Proof.
  rewrite !text_eqb_true.
  destruct a as [x|x], b as [y|y], c as [z|z]; intros H1 H2;
    repeat match goal with H : _ /\ _ |- _ => destruct H end; subst;
    repeat split; auto;
    try (apply codes_of_string_inj; congruence).
Qed.

Lemma dict_get_set_same items k v : dict_get (dict_set items k v) k = Some v.
Proof.
  induction items as [|[k' v'] rest IH]; simpl.
  - now rewrite text_eqb_refl.
  - destruct (text_eqb k k') eqn:E; simpl; now rewrite E.
Qed.

Lemma dict_get_set_other items k v k2 :
  text_eqb k k2 = false ->
  dict_get (dict_set items k v) k2 = dict_get items k2.
Proof.
  intros Hne. induction items as [|[k' v'] rest IH]; simpl.
  - now rewrite text_eqb_sym, Hne.
  - destruct (text_eqb k k') eqn:E; simpl.
    + destruct (text_eqb k2 k') eqn:E2; [|reflexivity].
      rewrite (text_eqb_common _ _ _ E E2) in Hne. discriminate.
    + now rewrite IH.
Qed.

(** What [attach] does to one validated metric. *)
Lemma attach_metric tenant_id region metric :
  _validate_single_metric metric = Ok tt ->
  entry (metrics_transform_factory.attach tenant_id region metric) (Str "tenant_id")
  = Some tenant_id /\
  entry (metrics_transform_factory.attach tenant_id region metric) (Str "region")
  = Some region /\
  forall k,
    text_eqb (Str "tenant_id") k = false ->
    text_eqb (Str "region") k = false ->
    entry (metrics_transform_factory.attach tenant_id region metric) k = entry metric k.
Proof.
  intros Hok. destruct (validate_single_metric_dict _ Hok) as [items ->].
  cbn [metrics_transform_factory.attach entry].
  split; [|split].
  - rewrite dict_get_set_other by reflexivity. apply dict_get_set_same.
  - apply dict_get_set_same.
  - intros k Ht Hr. now rewrite !dict_get_set_other.
Qed.

(** C6.  For every validated batch, tenant id and region: the transform
    returns a sequence with one element per metric of the batch, in order;
    each element has the given [tenant_id] and [region] and every other field
    as in the input metric; and, run on a store, it leaves the batch as it was
    and returns a newly allocated sequence. *)
Theorem transform_attaches_tenant_and_region batch tenant_id region :
  validate_each batch = Ok tt ->
  exists outs,
    metrics_transform_factory.transform batch tenant_id region = PyList outs /\
    Forall2 (fun m m' =>
               entry m' (Str "tenant_id") = Some tenant_id /\
               entry m' (Str "region") = Some region /\
               forall k,
                 text_eqb (Str "tenant_id") k = false ->
                 text_eqb (Str "region") k = false ->
                 entry m' k = entry m k)
            (batch_elements batch) outs /\
    forall st address,
      nth_error st address = Some batch ->
      nth_error (fst (metrics_transform_factory.transform_in st address tenant_id region))
        address = Some batch /\
      firstn (List.length st)
        (fst (metrics_transform_factory.transform_in st address tenant_id region)) = st /\
      snd (metrics_transform_factory.transform_in st address tenant_id region) <> address /\
      nth_error (fst (metrics_transform_factory.transform_in st address tenant_id region))
        (snd (metrics_transform_factory.transform_in st address tenant_id region))
      = Some (PyList outs).
Proof.
  intros Hok.
  exists (map (metrics_transform_factory.attach tenant_id region) (batch_elements batch)).
  split; [now destruct batch as [| | | | | |[s|c]| |]|].
  split.
  - rewrite validate_each_elements, for_each_ok in Hok.
    induction Hok as [|m ms Hm Hms IH]; cbn [map]; constructor; auto.
    now apply attach_metric.
  - intros st address Hat.
    assert (Hlt : (address < List.length st)%nat)
      by (apply nth_error_Some; congruence).
    unfold metrics_transform_factory.transform_in. cbn [fst snd].
    rewrite (nth_error_nth _ _ PyNone Hat).
    repeat split.
    + now rewrite nth_error_app1.
    + rewrite firstn_app, Nat.sub_diag, firstn_all. cbn. apply app_nil_r.
    + lia.
    + rewrite nth_error_app2, Nat.sub_diag by lia. cbn.
      now destruct batch as [| | | | | |[s|c]| |].
Qed.

Lemma transform_attaches_tenant_and_region_sample :
  exists outs,
    metrics_transform_factory.transform (PyList [cpu_idle; bool_stamped]) tenant_42
      (PyText (Str "useast")) = PyList outs /\
    Forall2 (fun m m' =>
               entry m' (Str "tenant_id") = Some tenant_42 /\
               entry m' (Str "region") = Some (PyText (Str "useast")) /\
               forall k,
                 text_eqb (Str "tenant_id") k = false ->
                 text_eqb (Str "region") k = false ->
                 entry m' k = entry m k)
            (batch_elements (PyList [cpu_idle; bool_stamped])) outs /\
    forall st address,
      nth_error st address = Some (PyList [cpu_idle; bool_stamped]) ->
      nth_error (fst (metrics_transform_factory.transform_in st address tenant_42
                        (PyText (Str "useast"))))
        address = Some (PyList [cpu_idle; bool_stamped]) /\
      firstn (List.length st)
        (fst (metrics_transform_factory.transform_in st address tenant_42
                (PyText (Str "useast")))) = st /\
      snd (metrics_transform_factory.transform_in st address tenant_42
             (PyText (Str "useast"))) <> address /\
      nth_error (fst (metrics_transform_factory.transform_in st address tenant_42
                        (PyText (Str "useast"))))
        (snd (metrics_transform_factory.transform_in st address tenant_42
                (PyText (Str "useast"))))
      = Some (PyList outs).
Proof.
  apply (transform_attaches_tenant_and_region (PyList [cpu_idle; bool_stamped])).
  vm_compute; reflexivity.
Defined.

Example transform_of_scenario_1 :
  metrics_transform_factory.transform cpu_idle tenant_42 (PyText (Str "useast"))
  = PyList
      [PyDict [(u "name", PyText (u "cpu.idle"));
               (u "timestamp", PyInt 1234567890);
               (u "value", PyFloat 98.5%float);
               (u "dimensions", PyDict [(u "host", PyText (u "a"))]);
               (Str "tenant_id", tenant_42);
               (Str "region", PyText (Str "useast"))]].
Proof. vm_compute; reflexivity. Qed.

(** ** The validator, further *)

(** X1.  A metric [_validate_single_metric] accepts is a mapping whose name
    is text of at most 64, whose timestamp is an [int] or a [float] (a
    [long] is not) and whose value is an [int], [long], [float] or
    [complex], whatever its [dimensions] entry is. *)
Theorem accepted_metric_shape metric :
  _validate_single_metric metric = Ok tt ->
  exists items name timestamp value,
    metric = PyDict items /\
    dict_get items (Str "name") = Some (PyText name) /\
    (len_text name <= 64)%Z /\
    dict_get items (Str "timestamp") = Some timestamp /\
    isinstance timestamp [t_int; t_float] = true /\
    type_of timestamp <> t_long /\
    dict_get items (Str "value") = Some value /\
    isinstance value [t_int; t_long; t_float; t_complex] = true.
Proof.
  destruct metric as [| | | | | |[s|c]| |items]; try discriminate.
  unfold _validate_single_metric, getitem.
  destruct (dict_get items (Str "name")) as [name|] eqn:Hname; [|py_step; discriminate].
  py_step.
  destruct name as [| | | | | |name| |]; try discriminate.
  rewrite isinstance_text. py_step.
  destruct (Z.leb_spec (len_text name) 64) as [Hlen|Hlen]; [|py_step; discriminate].
  py_step.
  destruct (dict_get items (Str "timestamp")) as [timestamp|] eqn:Htimestamp;
    [|py_step; discriminate].
  py_step.
  destruct (isinstance timestamp [t_int; t_float]) eqn:Hts; [|py_step; discriminate].
  py_step.
  destruct (dict_get items (Str "value")) as [value|] eqn:Hvalue;
    [|py_step; discriminate].
  py_step.
  destruct (isinstance value [t_int; t_long; t_float; t_complex]) eqn:Hv;
    [|py_step; discriminate].
  intros _. exists items, name, timestamp, value.
  repeat split; auto.
  destruct timestamp as [| | | | | |[s|c]| |];
    cbn [type_of]; (discriminate || (vm_compute in Hts; discriminate Hts)).
Qed.

Lemma accepted_metric_shape_cpu_idle :
  exists items name timestamp value,
    cpu_idle = PyDict items /\
    dict_get items (Str "name") = Some (PyText name) /\
    (len_text name <= 64)%Z /\
    dict_get items (Str "timestamp") = Some timestamp /\
    isinstance timestamp [t_int; t_float] = true /\
    type_of timestamp <> t_long /\
    dict_get items (Str "value") = Some value /\
    isinstance value [t_int; t_long; t_float; t_complex] = true.
Proof. apply accepted_metric_shape. vm_compute; reflexivity. Defined.

Lemma dict_get_key_found items k v :
  In (k, v) items -> exists v', dict_get items k = Some v'.
Proof.
  induction items as [|[k0 v0] rest IH]; simpl; [tauto|].
  intros [Heq|Hin].
  - inversion Heq; subst. rewrite text_eqb_refl. now eexists.
  - destruct (text_eqb k k0); [now eexists|now apply IH].
Qed.

(** What one turn of the dimensions loop can raise. *)
Lemma check_dimension_raises items dims ds d ex :
  dict_get items (Str "dimensions") = Some dims ->
  iter dims = Ok ds ->
  In d ds ->
  check_dimension (PyDict items) d = Raise ex ->
  ex = AssertionError \/
  (is_mapping dims = false /\ exists msg, ex = TypeError msg).
Proof.
  intros Hd Hiter Hin.
  destruct d as [| | | | | |k| |]; try (intros H; inversion H; now left).
  unfold check_dimension, getitem at 1 3. rewrite Hd.
  destruct (len_text k <=? 255)%Z; py_step; [|intros H; inversion H; now left].
  destruct dims as [| | | | | |[s|c]| |dms]; try discriminate Hiter;
    try (cbn; intros H; inversion H; right; split; [reflexivity|now eexists]).
  cbn in Hiter. inversion Hiter; subst ds.
  apply in_map_iff in Hin. destruct Hin as ([k' v] & Hk & Hin).
  cbn in Hk. inversion Hk; subst k'.
  destruct (dict_get_key_found _ _ _ Hin) as [v' Hv'].
  unfold getitem. rewrite Hv'. py_step.
  destruct v' as [| | | | | |t| |]; try (cbn; intros H; inversion H; now left).
  rewrite isinstance_text. py_step.
  destruct (len_text t <=? 255)%Z; cbn; intros H; inversion H; now left.
Qed.

(** What the validator can raise, and when it is a [TypeError]. *)
Lemma validate_single_metric_raises metric ex :
  _validate_single_metric metric = Raise ex ->
  ex = AssertionError \/
  (exists k, In k ["name"; "timestamp"; "value"] /\ ex = KeyError (PyText (Str k))) \/
  (exists msg,
     ex = TypeError msg /\
     (is_mapping metric = false \/
      exists dims, field metric "dimensions" = Some dims /\ is_mapping dims = false)).
Proof.
  destruct metric as [| | | | | |[s|c]| |items];
    try (cbn; intros H; inversion H; right; right; eexists; split;
         [reflexivity|now left]).
  unfold _validate_single_metric, getitem at 1 2 3 4, contains, field.
  destruct (dict_get items (Str "name")) as [name|].
  2:{ py_step. intros H; inversion H. right; left. exists "name". cbn; auto. }
  py_step.
  destruct name as [| | | | | |name| |]; try (cbn; intros H; inversion H; now left).
  rewrite isinstance_text. py_step.
  destruct (len_text name <=? 64)%Z; py_step; [|intros H; inversion H; now left].
  destruct (dict_get items (Str "timestamp")) as [timestamp|].
  2:{ py_step. intros H; inversion H. right; left. exists "timestamp". cbn; auto. }
  py_step.
  destruct (isinstance timestamp [t_int; t_float]); py_step;
    [|intros H; inversion H; now left].
  destruct (dict_get items (Str "value")) as [value|].
  2:{ py_step. intros H; inversion H. right; left. exists "value". cbn; auto. }
  py_step.
  destruct (isinstance value [t_int; t_long; t_float; t_complex]); py_step;
    [|intros H; inversion H; now left].
  destruct (dict_get items (Str "dimensions")) as [dims|] eqn:Hd; [|discriminate].
  unfold getitem. rewrite Hd. py_step.
  destruct (iter dims) as [ds|e] eqn:Hiter; py_step.
  - intros H.
    destruct (for_each_first_failure _ _ _ H) as (pre & d & post & -> & _ & Hbody).
    destruct (check_dimension_raises items dims _ d ex Hd Hiter) as [Ha|[Hm [msg ->]]];
      auto.
    + apply in_or_app; right; now left.
    + right; right. exists msg. split; [reflexivity|]. right. now exists dims.
  - intros H; inversion H; subst e.
    destruct dims as [| | | | | |[s|c]| |dms]; try discriminate Hiter;
      cbn in Hiter; inversion Hiter; right; right; eexists;
      (split; [reflexivity|right; eexists; split; [reflexivity|reflexivity]]).
Qed.

(** X2.  The description of the 400 that [_validate_metrics] raises is the
    message of an [AssertionError] (the empty string), of a [KeyError] for
    one of [name], [timestamp], [value] (that key), or of a [TypeError]; the
    checks raise nothing else. *)
Theorem validation_error_descriptions batch e :
  outcome (_validate_metrics batch) = Raise e ->
  exists ex,
    e = HTTP (falcon.HTTPBadRequest "Bad request" (message ex)) /\
    (ex = AssertionError \/
     (exists k, In k ["name"; "timestamp"; "value"] /\ ex = KeyError (PyText (Str k))) \/
     exists msg, ex = TypeError msg).
Proof.
  unfold _validate_metrics.
  destruct (validate_each batch) as [[]|ex] eqn:E; [discriminate|].
  cbn. intros H; inversion H; subst e. exists ex. split; [reflexivity|].
  rewrite validate_each_elements in E.
  destruct (for_each_first_failure _ _ _ E) as (pre & m & post & _ & _ & Hm).
  destruct (validate_single_metric_raises _ _ Hm) as [Ha|[Hk|[msg [-> _]]]]; auto.
  right; right. now exists msg.
Qed.

Lemma validation_error_descriptions_nameless :
  exists ex,
    HTTP (falcon.HTTPBadRequest "Bad request" (PyText (Str "name")))
    = HTTP (falcon.HTTPBadRequest "Bad request" (message ex)) /\
    (ex = AssertionError \/
     (exists k, In k ["name"; "timestamp"; "value"] /\ ex = KeyError (PyText (Str k))) \/
     exists msg, ex = TypeError msg).
Proof.
  apply (validation_error_descriptions (PyList [cpu_idle; nameless])).
  vm_compute; reflexivity.
Defined.

(** The checks of name, timestamp and value passed: the run is at the
    [dimensions] test. *)
Lemma validate_single_metric_dimensions items :
  code_valid_metric (PyDict items) = true ->
  _validate_single_metric (PyDict items)
  = match dict_get items (Str "dimensions") with
    | Some dims => rbind (iter dims) (fun ds => for_each ds (check_dimension (PyDict items)))
    | None => Ok tt
    end.
Proof.
  unfold code_valid_metric, checks, field, _validate_single_metric, getitem, contains.
  destruct (dict_get items (Str "name")) as [name|]; [|discriminate].
  destruct (dict_get items (Str "timestamp")) as [timestamp|]; [|discriminate].
  destruct (dict_get items (Str "value")) as [value|]; [|discriminate].
  destruct name as [| | | | | |name| |]; try discriminate.
  unfold is_number. py_step. rewrite isinstance_text. py_step.
  destruct (len_text name <=? 64)%Z; [|discriminate].
  destruct (isinstance timestamp [t_int; t_float]); [|discriminate].
  destruct (isinstance value [t_int; t_long; t_float; t_complex]); [|discriminate].
  intros _. py_step.
  now destruct (dict_get items (Str "dimensions")).
Qed.

(** X3.  When name, timestamp and value pass and the [dimensions] entry is
    not a mapping, the metric is accepted exactly when that entry is an empty
    list or an empty string: nothing is looped over.  A non-empty list or
    string, and anything that cannot be iterated, is refused. *)
Theorem dimensions_not_a_mapping metric dims :
  code_valid_metric metric = true ->
  field metric "dimensions" = Some dims ->
  is_mapping dims = false ->
  _validate_single_metric metric = Ok tt
  <-> dims = PyList [] \/ dims = PyText (Str "") \/ dims = PyText (Unicode []).
Proof.
  intros Hvalid Hd Hnot.
  destruct metric as [| | | | | |[s|c]| |items]; try discriminate Hd.
  cbn [field] in Hd.
  rewrite (validate_single_metric_dimensions _ Hvalid), Hd.
  assert (Hget : getitem (PyDict items) (Str "dimensions") = Ok dims)
    by (unfold getitem; now rewrite Hd).
  destruct dims as [| | | | | |[s|c]| |dms]; try discriminate Hnot; cbn [iter rbind];
    try (split; [discriminate|intros [H|[H|H]]; discriminate H]).
  - (* str *)
    destruct s as [|a s]; cbn [list_ascii_of_string map for_each].
    + split; auto.
    + unfold check_dimension at 1. rewrite Hget.
      split; [|intros [H|[H|H]]; discriminate H].
      change (len_text (Str (String a ""))) with 1%Z. cbn. discriminate.
  - (* unicode *)
    destruct c as [|a c]; cbn [map for_each].
    + split; auto.
    + unfold check_dimension at 1. rewrite Hget.
      split; [|intros [H|[H|H]]; discriminate H].
      change (len_text (Unicode [a])) with 1%Z. cbn. discriminate.
  - (* list *)
    destruct xs as [|x xs]; cbn [for_each].
    + split; auto.
    + split; [|intros [H|[H|H]]; discriminate H].
      unfold check_dimension at 1. rewrite Hget.
      destruct x as [| | | | | |k| |]; try (cbn; discriminate).
      destruct (len_text k <=? 255)%Z; cbn; discriminate.
Qed.

Lemma dimensions_not_a_mapping_listed :
  _validate_single_metric listed_dimensions = Ok tt
  <-> PyList [] = PyList [] \/ PyList [] = PyText (Str "")
      \/ PyList [] = PyText (Unicode []).
Proof.
  apply (dimensions_not_a_mapping listed_dimensions (PyList [])); reflexivity.
Defined.

(** ** The order of a mapping's items *)

Lemma dict_wf_permutation items items' :
  Permutation items items' ->
  dict_wf items ->
  dict_wf items' /\ forall k, dict_get items k = dict_get items' k.
Proof.
  induction 1 as [|[kx vx] l l' Hperm IH|[kx vx] [ky vy] l|l l' l'' H1 IH1 H2 IH2].
  - auto.
  - cbn. intros [Hfresh Hwf]. destruct (IH Hwf) as [Hwf' Hget].
    repeat split; auto.
    + now rewrite <- Hget.
    + intros k. now rewrite Hget.
  - cbn. destruct (text_eqb ky kx) eqn:Eyx; [intros [H _]; discriminate H|].
    intros [Hy [Hx Hwf]].
    rewrite text_eqb_sym, Eyx. repeat split; auto.
    intros k.
    destruct (text_eqb k kx) eqn:Ekx, (text_eqb k ky) eqn:Eky; try reflexivity.
    rewrite text_eqb_sym in Ekx, Eky.
    rewrite (text_eqb_common _ _ _ Eky Ekx) in Eyx. discriminate.
  - intros Hwf. destruct (IH1 Hwf) as [Hwf' Hget]. destruct (IH2 Hwf') as [Hwf'' Hget'].
    split; auto. intros k. now rewrite Hget.
Qed.

(** The validator reads a metric through the lookups of four keys alone. *)
Lemma validate_single_metric_lookups items items' :
  (forall k, In k ["name"; "timestamp"; "value"; "dimensions"] ->
             dict_get items (Str k) = dict_get items' (Str k)) ->
  _validate_single_metric (PyDict items) = _validate_single_metric (PyDict items').
Proof.
  intros Hget.
  assert (Hitem : forall k, In k ["name"; "timestamp"; "value"; "dimensions"] ->
            getitem (PyDict items) (Str k) = getitem (PyDict items') (Str k))
    by (intros k Hk; unfold getitem; now rewrite (Hget k Hk)).
  unfold _validate_single_metric, contains, check_dimension.
  rewrite (Hitem "name"), (Hitem "timestamp"), (Hitem "value"), (Hitem "dimensions"),
    (Hget "dimensions") by (cbn; auto).
  reflexivity.
Qed.

(** X4.  The order in which a mapping holds its items does not matter to the
    validator: a metric and any reordering of its items get the same verdict,
    down to the exception raised. *)
Theorem validator_ignores_key_order items items' :
  dict_wf items ->
  Permutation items items' ->
  _validate_single_metric (PyDict items') = _validate_single_metric (PyDict items).
Proof.
  intros Hwf Hperm. symmetry. apply validate_single_metric_lookups.
  intros k _. now apply dict_wf_permutation.
Qed.

Lemma validator_ignores_key_order_cpu_idle :
  _validate_single_metric (PyDict cpu_idle_reordered)
  = _validate_single_metric (PyDict cpu_idle_items).
Proof.
  apply validator_ignores_key_order.
  - vm_compute. auto.
  - apply perm_swap.
Defined.

(** X16.  The validator looks at [name], [timestamp], [value] and
    [dimensions] and at nothing else: setting any other field of a metric, to
    any value, leaves the verdict as it was.  Unknown fields are never a
    reason to refuse a metric. *)
Theorem validator_ignores_other_fields items k v :
  (forall field_name, In field_name ["name"; "timestamp"; "value"; "dimensions"] ->
                      text_eqb k (Str field_name) = false) ->
  _validate_single_metric (PyDict (dict_set items k v))
  = _validate_single_metric (PyDict items).
Proof.
  intros Hother. apply validate_single_metric_lookups.
  intros field_name Hin. now rewrite dict_get_set_other by auto.
Qed.

Lemma validator_ignores_other_fields_unit :
  _validate_single_metric
    (PyDict (dict_set cpu_idle_items (u "unit") (PyList [PyInt 1])))
  = _validate_single_metric (PyDict cpu_idle_items).
Proof.
  apply validator_ignores_other_fields.
  intros field_name Hin. cbn in Hin.
  decompose [or] Hin; subst; try reflexivity; contradiction.
Defined.

(** Over a dimensions mapping the loop ends in [Ok] or in a failed
    assertion, by the sizes and types of the entries alone. *)
Lemma dimensions_loop_result items dims :
  dict_get items (Str "dimensions") = Some (PyDict dims) ->
  dict_wf dims ->
  for_each (map (fun kv => PyText (fst kv)) dims) (check_dimension (PyDict items))
  = if dimensions_within (Some (PyDict dims)) then Ok tt else Raise AssertionError.
Proof.
  intros Hd Hwf.
  destruct (for_each _ _) as [[]|ex] eqn:E.
  - apply (dimensions_loop_ok _ _ Hd Hwf) in E. now rewrite E.
  - destruct (dimensions_within (Some (PyDict dims))) eqn:Hin.
    + apply (dimensions_loop_ok _ _ Hd Hwf) in Hin. congruence.
    + destruct (for_each_first_failure _ _ _ E) as (pre & d & post & Heq & _ & Hbody).
      assert (Hd_in : In d (map (fun kv => PyText (fst kv)) dims))
        by (rewrite Heq; apply in_or_app; right; now left).
      destruct (check_dimension_raises items (PyDict dims) _ d ex Hd eq_refl Hd_in Hbody)
        as [->|[Hm _]]; [reflexivity|discriminate Hm].
Qed.

Lemma forallb_permutation {A} (p : A -> bool) (l l' : list A) :
  Permutation l l' -> forallb p l = forallb p l'.
Proof.
  induction 1 as [|x l l' _ IH|x y l|l l' l'' _ IH1 _ IH2]; cbn.
  - reflexivity.
  - now rewrite IH.
  - now rewrite !andb_assoc, (andb_comm (p y)).
  - congruence.
Qed.

(** X5.  Nor does the order of the dimensions: replacing a metric's
    dimensions mapping by a reordering of it leaves the validator's verdict
    as it was, down to the exception raised, although the loop stops at the
    first dimension that fails. *)
Theorem validator_ignores_dimension_order items dims dims' :
  dict_get items (Str "dimensions") = Some (PyDict dims) ->
  dict_wf dims ->
  Permutation dims dims' ->
  _validate_single_metric (PyDict (dict_set items (Str "dimensions") (PyDict dims')))
  = _validate_single_metric (PyDict items).
Proof.
  intros Hd Hwf Hperm.
  destruct (dict_wf_permutation _ _ Hperm Hwf) as [Hwf' _].
  set (items' := dict_set items (Str "dimensions") (PyDict dims')).
  assert (Hd' : dict_get items' (Str "dimensions") = Some (PyDict dims'))
    by apply dict_get_set_same.
  assert (Hloop :
    for_each (map (fun kv => PyText (fst kv)) dims') (check_dimension (PyDict items'))
    = for_each (map (fun kv => PyText (fst kv)) dims) (check_dimension (PyDict items))).
  { rewrite (dimensions_loop_result _ _ Hd Hwf), (dimensions_loop_result _ _ Hd' Hwf').
    cbn [dimensions_within]. now rewrite (forallb_permutation _ _ _ Hperm). }
  assert (Hother : forall k, text_eqb (Str "dimensions") (Str k) = false ->
            getitem (PyDict items') (Str k) = getitem (PyDict items) (Str k)).
  { intros k Hk. unfold getitem, items'. now rewrite dict_get_set_other. }
  assert (Hdims : getitem (PyDict items) (Str "dimensions") = Ok (PyDict dims))
    by (unfold getitem; now rewrite Hd).
  assert (Hdims' : getitem (PyDict items') (Str "dimensions") = Ok (PyDict dims'))
    by (unfold getitem; now rewrite Hd').
  unfold _validate_single_metric, contains.
  rewrite Hd, Hd', Hdims, Hdims', !Hother by reflexivity.
  destruct (getitem (PyDict items) (Str "name")) as [name|]; [|reflexivity].
  cbn [rbind].
  destruct (assert (isinstance name [t_str; t_unicode])) as [[]|e]; [|reflexivity].
  cbn [rbind].
  destruct (len name) as [n|e]; [|reflexivity].
  cbn [rbind].
  destruct (assert (n <=? 64)%Z) as [[]|e]; [|reflexivity].
  cbn [rbind].
  destruct (getitem (PyDict items) (Str "timestamp")) as [timestamp|]; [|reflexivity].
  cbn [rbind].
  destruct (assert (isinstance timestamp [t_int; t_float])) as [[]|e]; [|reflexivity].
  cbn [rbind].
  destruct (getitem (PyDict items) (Str "value")) as [value|]; [|reflexivity].
  cbn [rbind].
  destruct (assert (isinstance value [t_int; t_long; t_float; t_complex])) as [[]|e];
    [|reflexivity].
  cbn [iter rbind]. exact Hloop.
Qed.

Lemma validator_ignores_dimension_order_sample :
  let dims := [(u "host", PyText (u "a")); (u "zone", PyText (u "b"))] in
  let dims' := [(u "zone", PyText (u "b")); (u "host", PyText (u "a"))] in
  let items := [(u "name", PyText (u "cpu.idle")); (u "timestamp", PyInt 1);
                (u "value", PyInt 2); (u "dimensions", PyDict dims)] in
  _validate_single_metric (PyDict (dict_set items (Str "dimensions") (PyDict dims')))
  = _validate_single_metric (PyDict items).
Proof.
  cbv zeta.
  apply (validator_ignores_dimension_order _
           [(u "host", PyText (u "a")); (u "zone", PyText (u "b"))]).
  - reflexivity.
  - vm_compute. auto.
  - apply perm_swap.
Defined.

(** ** Batches, composed *)

Lemma for_each_app {A} (xs ys : list A) (body : A -> raises unit) :
  for_each (xs ++ ys) body
  = rbind (for_each xs body) (fun _ => for_each ys body).
Proof.
  induction xs as [|x xs IH]; cbn; [reflexivity|].
  destruct (body x) as [[]|e]; cbn; auto.
Qed.

(** X6.  A metric alone and the list holding just that metric are validated
    alike; and a batch made of two batches is validated as the first, then
    the second: it fails as the first does when the first fails, and
    otherwise as the second does. *)
Theorem validate_metrics_composes :
  (forall metric,
     isinstance metric [t_list] = false ->
     _validate_metrics (PyList [metric]) = _validate_metrics metric) /\
  (forall ms ms',
     _validate_metrics (PyList (ms ++ ms'))
     = match validate_each (PyList ms) with
       | Ok _ => _validate_metrics (PyList ms')
       | Raise _ => _validate_metrics (PyList ms)
       end).
Proof.
  split.
  - intros metric Hsingle. unfold _validate_metrics.
    rewrite validate_each_list, (validate_each_single _ Hsingle). cbn [for_each].
    now destruct (_validate_single_metric metric) as [[]|ex].
  - intros ms ms'. unfold _validate_metrics.
    rewrite !validate_each_list, for_each_app.
    now destruct (for_each ms _validate_single_metric) as [[]|ex].
Qed.

(** ** Sending *)

(** X7.  [_send_metrics] calls the queue exactly once, with the batch it was
    given, and never again whatever the queue answers; it returns exactly
    when the queue does; a [MessageQueueException] never leaves it (it
    becomes a 503 with retry-after 60, and is logged); any other exception
    of the queue leaves it as it is, unlogged. *)
Theorem send_metrics_single_attempt self batch :
  (exists logged,
     trace (_send_metrics self batch) = EvSendMessageBatch batch :: logged /\
     existsb is_send logged = false) /\
  (outcome (_send_metrics self batch) = Ok tt
   <-> send_message_batch (_message_queue self) batch = Ok tt) /\
  (forall msg, outcome (_send_metrics self batch) <> Raise (MessageQueueException msg)) /\
  (forall e,
     send_message_batch (_message_queue self) batch = Raise e ->
     (forall msg, e <> MessageQueueException msg) ->
     _send_metrics self batch = ([EvSendMessageBatch batch], Raise e)).
Proof.
  unfold _send_metrics, call, try_except.
  destruct (send_message_batch (_message_queue self) batch) as [[]|[e|msg|name msg]];
    cbn; repeat split; try congruence; try discriminate;
    try (eexists; split; reflexivity).
Qed.

(** ** What a 204 means *)

(** X8.  A POST that returns has status 204 and the body it came with, and
    the batch has gone to the queue: the content type and the caller were
    accepted, the body was read and passed validation, the tenant was
    resolved, and the queue took, in one send and as the last call of the
    request, what the transform made of the body for that tenant and the
    controller's region. *)
Theorem post_returns_after_delivery h self req res sent :
  outcome (do_post_metrics h self req res) = Ok sent ->
  sent = falcon.mkResponse falcon.HTTP_204 (falcon.res_body res) /\
  exists metrics tenant_id batch,
    h_read_http_resource h req = Ok metrics /\
    validate_each metrics = Ok tt /\
    h_get_x_tenant_or_tenant_id h req (_delegate_authorized_roles self) = Ok tenant_id /\
    _metrics_transform self metrics tenant_id (_region self) = Ok batch /\
    send_message_batch (_message_queue self) batch = Ok tt /\
    trace (do_post_metrics h self req res)
    = [EvValidateJsonContentType;
       EvValidateAuthorization (_post_metrics_authorized_roles self);
       EvReadHttpResource;
       EvGetXTenantOrTenantId (_delegate_authorized_roles self);
       EvMetricsTransform;
       EvSendMessageBatch batch].
Proof.
  rewrite do_post_metrics_run. cbv zeta.
  destruct (h_validate_json_content_type h req) as [[]|e0]; [|discriminate].
  destruct (h_validate_authorization h req _) as [[]|f]; [|discriminate].
  destruct (h_read_http_resource h req) as [metrics|e1]; [|discriminate].
  destruct (validate_each metrics) as [[]|ex] eqn:Hvalid; [|discriminate].
  destruct (h_get_x_tenant_or_tenant_id h req _) as [tenant_id|e2]; [|discriminate].
  destruct (_metrics_transform self metrics tenant_id _) as [batch|e3] eqn:Htr;
    [|discriminate].
  destruct (send_message_batch _ batch) as [[]|[e|msg|name msg]] eqn:Hsend;
    try discriminate.
  cbn. intros H; inversion H. split; [reflexivity|].
  exists metrics, tenant_id, batch. repeat split; auto.
Qed.

Lemma post_returns_after_delivery_sample :
  let h := sample_helpers (Ok tt) (Ok tt) (Ok cpu_idle) (Ok tenant_42) in
  let self := sample_metrics (Ok tt) [] in
  let sent := falcon.mkResponse "204 No Content" None in
  sent = falcon.mkResponse falcon.HTTP_204 (falcon.res_body fresh_response) /\
  exists metrics tenant_id batch,
    h_read_http_resource h sample_request = Ok metrics /\
    validate_each metrics = Ok tt /\
    h_get_x_tenant_or_tenant_id h sample_request (_delegate_authorized_roles self)
    = Ok tenant_id /\
    _metrics_transform self metrics tenant_id (_region self) = Ok batch /\
    send_message_batch (_message_queue self) batch = Ok tt /\
    trace (do_post_metrics h self sample_request fresh_response)
    = [EvValidateJsonContentType;
       EvValidateAuthorization (_post_metrics_authorized_roles self);
       EvReadHttpResource;
       EvGetXTenantOrTenantId (_delegate_authorized_roles self);
       EvMetricsTransform;
       EvSendMessageBatch batch].
Proof.
  cbv zeta.
  apply (post_returns_after_delivery
           (sample_helpers (Ok tt) (Ok tt) (Ok cpu_idle) (Ok tenant_42))
           (sample_metrics (Ok tt) []) sample_request fresh_response).
  vm_compute; reflexivity.
Defined.

Lemma no_send_no_split (t before : list event) batch after :
  existsb is_send t = false ->
  t <> (before ++ EvSendMessageBatch batch :: after)%list.
Proof.
  intros Ht ->. rewrite existsb_app in Ht. cbn in Ht.
  now rewrite orb_true_r in Ht.
Qed.

Lemma unique_send_split (pre tail before after : list event) batch0 batch :
  existsb is_send pre = false ->
  existsb is_send tail = false ->
  (pre ++ EvSendMessageBatch batch0 :: tail
   = before ++ EvSendMessageBatch batch :: after)%list ->
  batch = batch0 /\ before = pre /\ after = tail.
Proof.
  revert before. induction pre as [|p pre IH]; intros before Hpre Htail Heq.
  - destruct before as [|b before]; cbn in Heq.
    + inversion Heq. auto.
    + inversion Heq as [[Hb Hrest]].
      now destruct (no_send_no_split tail before batch after Htail).
  - cbn in Hpre. apply orb_false_iff in Hpre as [Hp Hpre].
    destruct before as [|b before]; cbn in Heq.
    + inversion Heq; subst. discriminate Hp.
    + inversion Heq as [[Hb Hrest]]. destruct (IH before Hpre Htail Hrest) as (? & ? & ?).
      subst. auto.
Qed.

(** X9.  No POST sends twice: whatever the collaborators answer, the trace
    holds at most one queue send, and after the send there is nothing but,
    when the queue failed in its own way, the log of that failure. *)
Theorem post_sends_at_most_once h self req res :
  (List.length (filter is_send (trace (do_post_metrics h self req res))) <= 1)%nat /\
  forall before batch after,
    trace (do_post_metrics h self req res)
    = (before ++ EvSendMessageBatch batch :: after)%list ->
    after = [] \/
    exists msg,
      after = [EvLogException (MessageQueueException msg)] /\
      send_message_batch (_message_queue self) batch = Raise (MessageQueueException msg).
Proof.
  rewrite do_post_metrics_run. cbv zeta.
  destruct (h_validate_json_content_type h req) as [[]|e0];
    [|split; [cbn; lia|intros ? ? ? H; now apply no_send_no_split in H]].
  destruct (h_validate_authorization h req _) as [[]|f];
    [|split; [cbn; lia|intros ? ? ? H; now apply no_send_no_split in H]].
  destruct (h_read_http_resource h req) as [metrics|e1];
    [|split; [cbn; lia|intros ? ? ? H; now apply no_send_no_split in H]].
  destruct (validate_each metrics) as [[]|ex];
    [|split; [cbn; lia|intros ? ? ? H; now apply no_send_no_split in H]].
  destruct (h_get_x_tenant_or_tenant_id h req _) as [tenant_id|e2];
    [|split; [cbn; lia|intros ? ? ? H; now apply no_send_no_split in H]].
  destruct (_metrics_transform self metrics tenant_id _) as [transformed|e3];
    [|split; [cbn; lia|intros ? ? ? H; now apply no_send_no_split in H]].
  destruct (send_message_batch _ transformed) as [[]|[e|msg|name msg]] eqn:Hsend;
    (split; [cbn; lia|]); intros before batch after H;
    unfold trace in H; cbn [fst app] in H;
    apply (unique_send_split [_; _; _; _; _]) in H; try reflexivity;
    destruct H as (-> & _ & ->); auto.
  right. now exists msg.
Qed.

(** ** The merge flag *)

Lemma get_boolean_merge_metrics_flag_run h v :
  _get_boolean_merge_metrics_flag h v
  = if is_False v then ret (PyBool false) else helpers.str_2_bool h v.
Proof. destruct v as [|[|]| | | | | | |]; reflexivity. Qed.

(** X10.  [_get_boolean_merge_metrics_flag] leaves only the object [False]
    alone: for it, it returns [False] and calls nothing; every other value,
    the falsy [None], [0] and the empty string among them, is handed to
    [str_2_bool], whose answer or exception is the result. *)
Theorem merge_flag_only_False_is_kept h v :
  (trace (_get_boolean_merge_metrics_flag h v) = [] <-> v = PyBool false) /\
  (v = PyBool false -> _get_boolean_merge_metrics_flag h v = ret (PyBool false)) /\
  (v <> PyBool false ->
   _get_boolean_merge_metrics_flag h v = ([EvStr2Bool], h_str_2_bool h v)) /\
  (forall w, In w [PyNone; PyInt 0; PyText (Str ""); PyText (Unicode [])] ->
     _get_boolean_merge_metrics_flag h w = ([EvStr2Bool], h_str_2_bool h w)).
Proof.
  repeat split.
  - destruct v as [|[|]| | | | | | |]; cbn; intros H; try discriminate H; reflexivity.
  - intros ->. reflexivity.
  - intros ->. reflexivity.
  - intros Hv. destruct v as [|[|]| | | | | | |]; try reflexivity. now destruct Hv.
  - intros w Hw. cbn in Hw. decompose [or] Hw; subst; try reflexivity; contradiction.
Qed.

(** ** The read handlers *)

Lemma bind_call {A B} (ev : event) (r : result exn A) (k : A -> M B) :
  bind (call ev r) k
  = match r with
    | Ok a => (ev :: trace (k a), outcome (k a))
    | Raise e => ([ev], Raise e)
    end.
Proof. destruct r as [a|e]; cbn; [now destruct (k a)|reflexivity]. Qed.

Lemma bind_ret {A B} (a : A) (k : A -> M B) : bind (ret a) k = k a.
Proof. cbn. now destruct (k a). Qed.

Lemma trace_bind {A B} (c : M A) (k : A -> M B) :
  trace (bind c k)
  = (trace c ++ match outcome c with Ok a => trace (k a) | Raise _ => [] end)%list.
Proof.
  destruct c as [t [a|e]]; cbn; [now destruct (k a)|now rewrite app_nil_r].
Qed.

Lemma outcome_bind {A B} (c : M A) (k : A -> M B) :
  outcome (bind c k)
  = match outcome c with Ok a => outcome (k a) | Raise e => Raise e end.
Proof. destruct c as [t [a|e]]; cbn; [now destruct (k a)|reflexivity]. Qed.

Ltac unfold_helpers :=
  unfold helpers.validate_authorization, helpers.get_tenant_id,
    helpers.get_query_name, helpers.validate_query_name,
    helpers.get_query_dimensions, helpers.validate_query_dimensions,
    helpers.get_query_starttime_timestamp, helpers.get_query_endtime_timestamp,
    helpers.get_query_statistics, helpers.get_query_period,
    helpers.get_query_param, helpers.get_limit, helpers.dumpit_utf8,
    helpers.str_2_bool.

(* One call of a handler: its outcome is split; [stop] closes the branch in
   which the call raised. *)
Ltac handler_step stop :=
  first
    [ rewrite bind_call;
      match goal with
      | |- context [match lift_auth ?r with Ok _ => _ | Raise _ => _ end] =>
          destruct r as [[]|?] eqn:?; cbn [lift_auth]
      | |- context [match ?r with Ok _ => _ | Raise _ => _ end] =>
          destruct r as [?|?] eqn:?
      end;
      repeat match goal with u : unit |- _ => destruct u end;
      cbn [trace outcome fst snd existsb is_repository orb];
      [|solve [stop]]
    | rewrite get_boolean_merge_metrics_flag_run;
      match goal with
      | |- context [if is_False ?v then _ else _] => destruct (is_False v) eqn:?
      end;
      [rewrite bind_ret|unfold_helpers] ].

Ltac stopped_before_repository := intros H; discriminate H.

(** X11.  A read handler queries the repository only after it has
    authorized the caller, resolved the tenant, and read and validated every
    query parameter it takes: if any of these calls raises, the repository is
    not called.  This holds for the four read handlers. *)
Theorem reads_query_after_normalization h self req res :
  (existsb is_repository (trace (do_get_metrics h self req res)) = true ->
   exists tenant_id name dimensions offset limit,
     get_metrics_prepared h self req tenant_id name dimensions offset limit) /\
  (existsb is_repository (trace (do_get_metric_names h self req res)) = true ->
   exists tenant_id dimensions offset limit,
     get_metric_names_prepared h self req tenant_id dimensions offset limit) /\
  (existsb is_repository (trace (do_get_measurements h self req res)) = true ->
   exists tenant_id name dimensions start_timestamp end_timestamp offset limit merge,
     get_measurements_prepared h self req tenant_id name dimensions start_timestamp
       end_timestamp offset limit merge) /\
  (existsb is_repository (trace (do_get_statistics h self req res)) = true ->
   exists tenant_id name dimensions start_timestamp end_timestamp statistics period
          offset limit merge,
     get_statistics_prepared h self req tenant_id name dimensions start_timestamp
       end_timestamp statistics period offset limit merge).
Proof.
  repeat split.
  - unfold do_get_metrics, get_metrics_prepared. unfold_helpers.
    do 8 handler_step stopped_before_repository.
    intros _. do 5 eexists. repeat split; eassumption.
  - unfold do_get_metric_names, get_metric_names_prepared. unfold_helpers.
    do 6 handler_step stopped_before_repository.
    intros _. do 4 eexists. repeat split; eassumption.
  - unfold do_get_measurements, get_measurements_prepared. unfold_helpers.
    do 11 handler_step stopped_before_repository.
    handler_step stopped_before_repository.
    + intros _. do 8 eexists. repeat split; try eassumption.
      eexists. split; [reflexivity|]. unfold merge_flag_of.
      match goal with H : is_False _ = true |- _ => now rewrite H end.
    + handler_step stopped_before_repository.
      intros _. do 8 eexists. repeat split; try eassumption.
      eexists. split; [reflexivity|]. unfold merge_flag_of.
      match goal with H : is_False _ = false |- _ => rewrite H; eassumption end.
  - unfold do_get_statistics, get_statistics_prepared. unfold_helpers.
    do 13 handler_step stopped_before_repository.
    handler_step stopped_before_repository.
    + intros _. do 10 eexists. repeat split; try eassumption.
      eexists. split; [reflexivity|]. unfold merge_flag_of.
      match goal with H : is_False _ = true |- _ => now rewrite H end.
    + handler_step stopped_before_repository.
      intros _. do 10 eexists. repeat split; try eassumption.
      eexists. split; [reflexivity|]. unfold merge_flag_of.
      match goal with H : is_False _ = false |- _ => rewrite H; eassumption end.
Qed.

Lemma served_by {A} h (reader : M A) (wrap : A -> Envelope) res sent :
  outcome (bind reader (fun result =>
             bind (call EvDumpitUtf8 (h_dumpit_utf8 h (wrap result)))
               (fun body => ret (respond res body)))) = Ok sent ->
  exists result body,
    outcome reader = Ok result /\
    h_dumpit_utf8 h (wrap result) = Ok body /\
    sent = falcon.mkResponse falcon.HTTP_200 (Some body).
Proof.
  rewrite outcome_bind.
  destruct (outcome reader) as [result|e]; [|discriminate].
  rewrite bind_call.
  destruct (h_dumpit_utf8 h (wrap result)) as [body|e] eqn:Hbody; [|discriminate].
  cbn. intros H; inversion H. now exists result, body.
Qed.

Ltac raised_not_returned := intros H; discriminate H.

Ltac served_reader :=
  intros H; apply (served_by _ _ (fun envelope => envelope)) in H;
  destruct H as (envelope & body & Hreader & Hbody & ->).

(** X12.  A read handler that returns has authorized the caller, resolved
    the tenant and normalized its parameters, and what it returns is a 200
    whose body is [dumpit_utf8] of the envelope its reader produced for that
    tenant, those parameters and the request's URI.  This holds for the four
    read handlers. *)
Theorem reads_return_the_readers_envelope h self req res sent :
  (outcome (do_get_metrics h self req res) = Ok sent ->
   exists tenant_id name dimensions offset limit,
     get_metrics_prepared h self req tenant_id name dimensions offset limit /\
     served h (_list_metrics h self tenant_id name dimensions (falcon.uri req)
                 offset limit) sent) /\
  (outcome (do_get_metric_names h self req res) = Ok sent ->
   exists tenant_id dimensions offset limit,
     get_metric_names_prepared h self req tenant_id dimensions offset limit /\
     served h (_list_metric_names h self tenant_id dimensions (falcon.uri req)
                 offset limit) sent) /\
  (outcome (do_get_measurements h self req res) = Ok sent ->
   exists tenant_id name dimensions start_timestamp end_timestamp offset limit merge,
     get_measurements_prepared h self req tenant_id name dimensions start_timestamp
       end_timestamp offset limit merge /\
     served h (_measurement_list h self tenant_id name dimensions start_timestamp
                 end_timestamp (falcon.uri req) offset limit merge) sent) /\
  (outcome (do_get_statistics h self req res) = Ok sent ->
   exists tenant_id name dimensions start_timestamp end_timestamp statistics period
          offset limit merge,
     get_statistics_prepared h self req tenant_id name dimensions start_timestamp
       end_timestamp statistics period offset limit merge /\
     served h (_metric_statistics h self tenant_id name dimensions start_timestamp
                 end_timestamp statistics period (falcon.uri req) offset limit merge)
       sent).
Proof.
  repeat split.
  - unfold do_get_metrics, get_metrics_prepared, served. unfold_helpers.
    do 8 handler_step raised_not_returned.
    served_reader. do 5 eexists. split; [repeat split; eassumption|].
    exists envelope, body; auto.
  - unfold do_get_metric_names, get_metric_names_prepared, served. unfold_helpers.
    do 6 handler_step raised_not_returned.
    served_reader. do 4 eexists. split; [repeat split; eassumption|].
    exists envelope, body; auto.
  - unfold do_get_measurements, get_measurements_prepared, served. unfold_helpers.
    do 11 handler_step raised_not_returned.
    handler_step raised_not_returned.
    + served_reader. do 8 eexists.
      split.
      { repeat split; try eassumption.
        eexists. split; [reflexivity|]. unfold merge_flag_of.
        match goal with H : is_False _ = true |- _ => now rewrite H end. }
      exists envelope, body; auto.
    + handler_step raised_not_returned.
      served_reader. do 8 eexists.
      split.
      { repeat split; try eassumption.
        eexists. split; [reflexivity|]. unfold merge_flag_of.
        match goal with H : is_False _ = false |- _ => rewrite H; eassumption end. }
      exists envelope, body; auto.
  - unfold do_get_statistics, get_statistics_prepared, served. unfold_helpers.
    do 13 handler_step raised_not_returned.
    handler_step raised_not_returned.
    + served_reader. do 10 eexists.
      split.
      { repeat split; try eassumption.
        eexists. split; [reflexivity|]. unfold merge_flag_of.
        match goal with H : is_False _ = true |- _ => now rewrite H end. }
      exists envelope, body; auto.
    + handler_step raised_not_returned.
      served_reader. do 10 eexists.
      split.
      { repeat split; try eassumption.
        eexists. split; [reflexivity|]. unfold merge_flag_of.
        match goal with H : is_False _ = false |- _ => rewrite H; eassumption end. }
      exists envelope, body; auto.
Qed.

(** ** One tenant, one region *)

(* One call of a handler run against two controllers at once. *)
Ltac paired_step :=
  first
    [ try rewrite !bind_call;
      match goal with
      | |- context [match lift_auth ?r with Ok _ => _ | Raise _ => _ end] =>
          destruct r as [[]|?] eqn:?; cbn [lift_auth]
      | |- context [match ?r with Ok _ => _ | Raise _ => _ end] =>
          destruct r as [?|?] eqn:?
      end;
      repeat match goal with u : unit |- _ => destruct u end;
      cbn [trace outcome fst snd];
      [|reflexivity]
    | rewrite !get_boolean_merge_metrics_flag_run;
      match goal with
      | |- context [if is_False ?v then _ else _] => destruct (is_False v) eqn:?
      end;
      [rewrite !bind_ret|unfold_helpers] ].

(** X13.  What a handler does depends on the repository only through the
    rows of the tenant [get_tenant_id] resolved, in the controller's own
    region: with any other repository that answers those queries alike, the
    handler makes the same calls and ends the same way.  The rows of other
    tenants and regions cannot show in a response. *)
Theorem handlers_see_one_tenant_and_region op h self repo req res :
  (forall tenant_id,
     h_get_tenant_id h req = Ok tenant_id ->
     repos_agree tenant_id (_region self) (_metrics_repo self) repo) ->
  handler op h (with_repo self repo) req res = handler op h self req res.
Proof.
  intros Hagree.
  destruct op; cbn [handler]; [reflexivity| | | |].
  - unfold do_get_metrics. cbn [with_repo _default_authorized_roles]. unfold_helpers.
    do 8 paired_step.
    destruct (Hagree _ eq_refl) as (Hlist & _).
    unfold _list_metrics. cbn [with_repo _metrics_repo _region].
    now rewrite Hlist.
  - unfold do_get_metric_names. cbn [with_repo _default_authorized_roles]. unfold_helpers.
    do 6 paired_step.
    destruct (Hagree _ eq_refl) as (_ & Hnames & _).
    unfold _list_metric_names. cbn [with_repo _metrics_repo _region].
    now rewrite Hnames.
  - unfold do_get_measurements. cbn [with_repo _default_authorized_roles]. unfold_helpers.
    do 11 paired_step.
    destruct (Hagree _ eq_refl) as (_ & _ & Hmeasurements & _).
    unfold _measurement_list. cbn [with_repo _metrics_repo _region].
    paired_step; [|paired_step]; now rewrite Hmeasurements.
  - unfold do_get_statistics. cbn [with_repo _default_authorized_roles]. unfold_helpers.
    do 13 paired_step.
    destruct (Hagree _ eq_refl) as (_ & _ & _ & Hstatistics).
    unfold _metric_statistics. cbn [with_repo _metrics_repo _region].
    paired_step; [|paired_step]; now rewrite Hstatistics.
Qed.

(** ** Construction *)

Lemma configure_roles start self :
  configure start = Ok self ->
  exists agent_roles,
    conf_agent_authorized_roles start = Ok agent_roles /\
    _post_metrics_authorized_roles self
    = (_default_authorized_roles self ++ agent_roles)%list.
Proof.
  unfold configure.
  destruct (super_init start) as [[]|e]; [|discriminate].
  cbn [rbind].
  destruct (conf_region start) as [region|e]; [|discriminate].
  cbn [rbind].
  destruct (conf_default_authorized_roles start) as [default|e]; [|discriminate].
  cbn [rbind].
  destruct (conf_delegate_authorized_roles start) as [delegate|e]; [|discriminate].
  cbn [rbind].
  destruct (conf_agent_authorized_roles start) as [agent|e]; [|discriminate].
  cbn [rbind].
  destruct (create_metrics_transform start) as [transform|e]; [|discriminate].
  cbn [rbind].
  destruct (conf_messaging_driver start) as [mdriver|e]; [|discriminate].
  cbn [rbind].
  destruct (init_driver start monasca_messaging mdriver (Some ["metrics"]))
    as [queue|e]; [|discriminate].
  cbn [rbind].
  destruct (conf_repositories_metrics_driver start) as [rdriver|e]; [|discriminate].
  cbn [rbind].
  destruct (init_driver start monasca_repositories rdriver None) as [repo|e];
    [|discriminate].
  cbn. intros H; inversion H; subst self. now exists agent.
Qed.

(** X14.  In a controller that [__init__] built, the roles that may POST
    are the default roles followed by the agent roles: every role the read
    handlers ask the authorizer for is among those the POST handler asks
    for, and a POST role that is no default role is an agent role. *)
Theorem constructed_roles start self :
  outcome (__init__ start) = Ok self ->
  exists agent_roles,
    conf_agent_authorized_roles start = Ok agent_roles /\
    required_roles self PostMetrics
    = (_default_authorized_roles self ++ agent_roles)%list /\
    (forall op role,
       In role (required_roles self op) -> In role (required_roles self PostMetrics)) /\
    (forall role,
       In role (required_roles self PostMetrics) ->
       In role (required_roles self GetMetrics) \/ In role agent_roles).
Proof.
  unfold __init__.
  destruct (configure start) as [built|ex] eqn:Hbuilt; [|discriminate].
  cbn. intros H; inversion H; subst built.
  destruct (configure_roles _ _ Hbuilt) as (agent & Hagent & Hpost).
  exists agent. cbn [required_roles]. rewrite Hpost.
  repeat split; auto.
  - intros op role. destruct op; cbn [required_roles]; rewrite ?Hpost; auto;
      intros Hin; apply in_or_app; now left.
  - intros role Hin. now apply in_app_or in Hin.
Qed.

Lemma constructed_roles_sample :
  let self := sample_constructed (shared_repo [] []) in
  exists agent_roles,
    conf_agent_authorized_roles (sample_startup (Ok (shared_repo [] []))) = Ok agent_roles /\
    required_roles self PostMetrics
    = (_default_authorized_roles self ++ agent_roles)%list /\
    (forall op role,
       In role (required_roles self op) -> In role (required_roles self PostMetrics)) /\
    (forall role,
       In role (required_roles self PostMetrics) ->
       In role (required_roles self GetMetrics) \/ In role agent_roles).
Proof.
  cbv zeta.
  apply (constructed_roles (sample_startup (Ok (shared_repo [] [])))
           (sample_constructed (shared_repo [] []))).
  reflexivity.
Defined.

(** What a successful [try] block has read and loaded. *)
Lemma configure_built start self :
  configure start = Ok self ->
  super_init start = Ok tt /\
  conf_region start = Ok (_region self) /\
  conf_default_authorized_roles start = Ok (_default_authorized_roles self) /\
  conf_delegate_authorized_roles start = Ok (_delegate_authorized_roles self) /\
  create_metrics_transform start = Ok (_metrics_transform self) /\
  (exists name,
     conf_messaging_driver start = Ok name /\
     init_driver start monasca_messaging name (Some ["metrics"])
     = Ok (_message_queue self)) /\
  (exists name,
     conf_repositories_metrics_driver start = Ok name /\
     init_driver start monasca_repositories name None = Ok (_metrics_repo self)).
Proof.
  unfold configure.
  destruct (super_init start) as [[]|e]; [|discriminate].
  cbn [rbind].
  destruct (conf_region start) as [region|e]; [|discriminate].
  cbn [rbind].
  destruct (conf_default_authorized_roles start) as [default|e]; [|discriminate].
  cbn [rbind].
  destruct (conf_delegate_authorized_roles start) as [delegate|e]; [|discriminate].
  cbn [rbind].
  destruct (conf_agent_authorized_roles start) as [agent|e]; [|discriminate].
  cbn [rbind].
  destruct (create_metrics_transform start) as [transform|e]; [|discriminate].
  cbn [rbind].
  destruct (conf_messaging_driver start) as [mdriver|e]; [|discriminate].
  cbn [rbind].
  destruct (init_driver start monasca_messaging mdriver (Some ["metrics"]))
    as [queue|e] eqn:Hqueue; [|discriminate].
  cbn [rbind].
  destruct (conf_repositories_metrics_driver start) as [rdriver|e]; [|discriminate].
  cbn [rbind].
  destruct (init_driver start monasca_repositories rdriver None) as [repo|e] eqn:Hrepo;
    [|discriminate].
  cbn. intros H; inversion H; subst self. cbn.
  repeat split; try reflexivity; eexists; split; try reflexivity; assumption.
Qed.

(** X15.  [__init__] builds a controller or raises
    [HTTPInternalServerError] titled "Service unavailable": when the base
    initializer, a configuration read, the transform factory or a driver
    loader raises, that exception is logged and the error carries its
    message; a controller that is built holds the messaging driver loaded
    under the configured name for the topic [metrics] and the repository
    driver loaded under the configured name, so none is built when either
    fails to load. *)
Theorem construction_loads_or_fails_with_500 start :
  (forall self,
     outcome (__init__ start) = Ok self ->
     trace (__init__ start) = [] /\
     (exists name,
        conf_messaging_driver start = Ok name /\
        init_driver start monasca_messaging name (Some ["metrics"])
        = Ok (_message_queue self)) /\
     (exists name,
        conf_repositories_metrics_driver start = Ok name /\
        init_driver start monasca_repositories name None = Ok (_metrics_repo self))) /\
  (forall e,
     outcome (__init__ start) = Raise e ->
     exists ex,
       configure start = Raise ex /\
       e = HTTP (falcon.mkHTTPError HTTP_500 "Service unavailable" (exc_message ex) None) /\
       trace (__init__ start) = [EvLogException (OtherException (exc_name ex) (exc_message ex))]) /\
  (forall ex, super_init start = Raise ex ->
     outcome (__init__ start)
     = Raise (HTTP (HTTPInternalServerError "Service unavailable" (exc_message ex)))).
Proof.
  unfold __init__. split; [|split].
  - intros self. destruct (configure start) as [built|ex] eqn:Hbuilt; [|discriminate].
    cbn. intros H; inversion H; subst built.
    destruct (configure_built _ _ Hbuilt) as (_ & _ & _ & _ & _ & Hqueue & Hrepo).
    auto.
  - intros e. destruct (configure start) as [built|ex]; [discriminate|].
    cbn. intros H; inversion H. now exists ex.
  - intros ex Hsuper. unfold configure. now rewrite Hsuper.
Qed.

Example construction_without_repository_driver :
  __init__ (sample_startup (Raise (mkException "ImportError" (PyText (Str "No module named influxdb")))))
  = ([EvLogException (OtherException "ImportError" (PyText (Str "No module named influxdb")))],
     Raise (HTTP (HTTPInternalServerError "Service unavailable"
                    (PyText (Str "No module named influxdb"))))).
Proof. vm_compute; reflexivity. Qed.

Example construction_of_sample :
  __init__ (sample_startup (Ok (shared_repo [] [])))
  = ret (sample_constructed (shared_repo [] [])).
Proof. reflexivity. Qed.

(** ** The theorems above, on concrete requests *)

Lemma handlers_see_one_tenant_and_region_sample :
  handler GetMeasurements
    (sample_helpers (Ok tt) (Ok tt) (Ok cpu_idle) (Ok tenant_42))
    (with_repo (sample_metrics (Ok tt) [cpu_idle])
       (shared_repo [cpu_idle] [long_stamped]))
    sample_request fresh_response
  = handler GetMeasurements
      (sample_helpers (Ok tt) (Ok tt) (Ok cpu_idle) (Ok tenant_42))
      (sample_metrics (Ok tt) [cpu_idle]) sample_request fresh_response.
Proof.
  apply handlers_see_one_tenant_and_region.
  intros tenant_id Htenant. inversion Htenant; subst tenant_id.
  repeat split; intros; reflexivity.
Defined.

(** A read that is served: every helper is called once, in the order of the
    source, then the repository, then the serializer. *)
Example get_statistics_served :
  do_get_statistics (sample_helpers (Ok tt) (Ok tt) (Ok cpu_idle) (Ok tenant_42))
    (sample_metrics (Ok tt) [cpu_idle]) sample_request fresh_response
  = ([EvValidateAuthorization ["user"; "admin"];
      EvGetTenantId;
      EvGetQueryName;
      EvValidateQueryName;
      EvGetQueryDimensions;
      EvValidateQueryDimensions;
      EvGetQueryStarttimeTimestamp;
      EvGetQueryEndtimeTimestamp;
      EvGetQueryStatistics;
      EvGetQueryPeriod;
      EvGetQueryParam "offset";
      EvGetLimit;
      EvGetQueryParam "merge_metrics";
      EvRepository "metrics_statistics";
      EvDumpitUtf8],
     Ok (falcon.mkResponse "200 OK" (Some "{}"))).
Proof. vm_compute; reflexivity. Qed.

(** A read whose limit does not parse: the repository is not called. *)
Example get_metrics_with_bad_limit :
  do_get_metrics
    (with_limit (sample_helpers (Ok tt) (Ok tt) (Ok cpu_idle) (Ok tenant_42))
       (Raise (HTTP (falcon.HTTPBadRequest "Bad request" (PyText (Str "limit"))))))
    (sample_metrics (Ok tt) [cpu_idle]) sample_request fresh_response
  = ([EvValidateAuthorization ["user"; "admin"];
      EvGetTenantId;
      EvGetQueryName;
      EvValidateQueryName;
      EvGetQueryDimensions;
      EvValidateQueryDimensions;
      EvGetQueryParam "offset";
      EvGetLimit],
     Raise (HTTP (falcon.HTTPBadRequest "Bad request" (PyText (Str "limit"))))).
Proof. vm_compute; reflexivity. Qed.
